(** * YouTube transcript summarizer: a shallow embedding and its properties

    The development follows
    [project3_youtube_transcript_summary/TRANSCRIBE AND SUMMARIZE_YOUTUBE_VIDEOS03.py]:
    the [VideoSummary] record and the methods of [YouTubeSummarizer]
    ([extract_video_id], [get_transcript], [create_summary_prompt],
    [get_gemini_response], [process_video], [_save_summary]).

    Python [str] values are modelled as [string], read as the UTF-8 bytes of
    the text: every delimiter the program looks for is an ASCII character, so
    searching, slicing and joining commute with the encoding.  Log output
    ([logger.info], [logger.error]) is not part of the model.

    The services and the operating system are collaborators.  The file
    system is the part below the working directory, with the directories
    and the regular files that are there and the path resolution of POSIX,
    [..] included; what this part does not determine (a request that is
    refused, a path that leaves the working directory, a write that fails)
    is answered by a [Host], over which the properties quantify. *)

From Stdlib Require Import Ascii NArith Lia.
From stdpp Require Import base option list gmap sets strings.
From Equations.Prop Require Import Equations Logic.

(** ** Python string primitives *)

Module PyStr.

Definition code (c : ascii) : N := N_of_ascii c.

(** [c.isascii()] *)
Definition is_ascii (c : ascii) : bool := (code c <? 128)%N.
Definition is_upper (c : ascii) : bool := (65 <=? code c)%N && (code c <=? 90)%N.
Definition is_lower (c : ascii) : bool := (97 <=? code c)%N && (code c <=? 122)%N.
Definition is_digit (c : ascii) : bool := (48 <=? code c)%N && (code c <=? 57)%N.

(** [c.isascii() and c.isalpha()] *)
Definition is_ascii_alpha (c : ascii) : bool := is_upper c || is_lower c.

Definition lower_char (c : ascii) : ascii :=
  if is_upper c then ascii_of_N (code c + 32) else c.

Fixpoint all_chars (p : ascii -> bool) (s : string) : bool :=
  match s with
  | EmptyString => true
  | String c s' => p c && all_chars p s'
  end.

Fixpoint map_chars (f : ascii -> ascii) (s : string) : string :=
  match s with
  | EmptyString => EmptyString
  | String c s' => String (f c) (map_chars f s')
  end.

(** [s.lower()], on ASCII text *)
Definition lower (s : string) : string := map_chars lower_char s.

(** [s.isascii()] *)
Definition isascii (s : string) : bool := all_chars is_ascii s.

(** [s[n:]] *)
Fixpoint drop (n : nat) (s : string) : string :=
  match n, s with
  | O, _ => s
  | S _, EmptyString => EmptyString
  | S n', String _ s' => drop n' s'
  end.

(** [s[:n]] *)
Fixpoint take (n : nat) (s : string) : string :=
  match n, s with
  | O, _ => EmptyString
  | S _, EmptyString => EmptyString
  | S n', String c s' => String c (take n' s')
  end.

(** [s[a:b]] for [0 <= a] *)
Definition slice (a b : nat) (s : string) : string := take (b - a) (drop a s).

(** [s.partition(sep)], as [Some (before, after)] at the first occurrence
    of [sep] and [None] when [sep] does not occur. *)
Fixpoint partition (sep s : string) : option (string * string) :=
  if String.prefix sep s then Some (EmptyString, drop (String.length sep) s)
  else match s with
       | EmptyString => None
       | String c s' =>
           match partition sep s' with
           | Some (a, b) => Some (String c a, b)
           | None => None
           end
       end.

(** [s.find(sub)], with [None] for -1 *)
Definition find (sub s : string) : option nat :=
  match partition sub s with
  | Some (a, _) => Some (String.length a)
  | None => None
  end.

(** [s.find(sub, start)] *)
Definition find_from (sub s : string) (start : nat) : option nat :=
  match find sub (drop start s) with
  | Some i => Some (start + i)
  | None => None
  end.

(** [s.rfind(sub)] *)
Fixpoint rfind (sub s : string) : option nat :=
  match s with
  | EmptyString => if String.prefix sub s then Some 0 else None
  | String _ s' =>
      match rfind sub s' with
      | Some i => Some (S i)
      | None => if String.prefix sub s then Some 0 else None
      end
  end.

(** [sub in s] *)
Definition contains (sub s : string) : bool :=
  match partition sub s with Some _ => true | None => false end.

(** [s.replace(c, '')] for a one-character [c] *)
Fixpoint remove_char (c : ascii) (s : string) : string :=
  match s with
  | EmptyString => EmptyString
  | String d s' => if Ascii.eqb c d then remove_char c s' else String d (remove_char c s')
  end.

(** [s.replace(c, d)] for one-character [c] and [d] *)
Definition replace_char (c d : ascii) (s : string) : string :=
  map_chars (fun x => if Ascii.eqb c x then d else x) s.

(** [s.lstrip(chars)] where [p] decides membership in [chars] *)
Fixpoint lstrip (p : ascii -> bool) (s : string) : string :=
  match s with
  | EmptyString => EmptyString
  | String c s' => if p c then lstrip p s' else s
  end.

(** [s.split(sep)].  Python raises [ValueError] for an empty separator;
    the program only splits on non-empty literals, and the model returns
    the string unsplit there. *)
Equations? split (sep s : string) : list string by wf (String.length s) lt :=
  split EmptyString s := [s];
  split (String c r) s with inspect (partition (String c r) s) := {
    | exist _ (Some (a, b)) _ := a :: split (String c r) b;
    | exist _ None _ := [s] }.
Proof.
  clear split. revert a b e.
  induction s as [|d s IH]; intros a b E; simpl in E.
  - discriminate.
  - assert (Hd : forall n t, String.length (drop n t) <= String.length t).
    { clear. induction n as [|n IHn]; intros [|x t]; simpl; try lia.
      specialize (IHn t). lia. }
    destruct (ascii_dec c d) as [_|_]; [destruct (String.prefix r s)|].
    + injection E as <- <-. specialize (Hd (String.length r) s). simpl. lia.
    + destruct (partition (String c r) s) as [[a' b']|]; [|discriminate].
      injection E as <- <-. specialize (IH _ _ eq_refl). simpl. lia.
    + destruct (partition (String c r) s) as [[a' b']|]; [|discriminate].
      injection E as <- <-. specialize (IH _ _ eq_refl). simpl. lia.
Qed.

(** [sep.join(l)] *)
Fixpoint join (sep : string) (l : list string) : string :=
  match l with
  | [] => EmptyString
  | [x] => x
  | x :: rest => x +:+ sep +:+ join sep rest
  end.

End PyStr.

(** ** The parts of [urllib.parse] the program calls

    [urlparse] and [parse_qs] belong to the Python standard library.  Their
    string processing is transcribed from CPython's [urllib/parse.py]; three
    library facilities that need Unicode or IP-address tables are left as
    parameters of the model. *)

Record UrlLib := {
  (** [_check_bracketed_netloc]: [false] when it raises [ValueError] for a
      netloc with both brackets *)
  bracketed_netloc_ok : string -> bool;
  (** [_checknetloc] on a non-ASCII netloc: [false] when the NFKC form
      contains a delimiter and [ValueError] is raised *)
  nfkc_netloc_ok : string -> bool;
  (** [bytes.decode('utf-8', 'replace')], the result again as UTF-8 bytes *)
  utf8_decode_replace : string -> string
}.

Record ParseResult := {
  scheme : string;
  netloc : string;
  path : string;
  params : string;
  query : string;
  fragment : string
}.

Module Url.
Import PyStr.

(** [_WHATWG_C0_CONTROL_OR_SPACE] *)
Definition is_c0_or_space (c : ascii) : bool := (code c <=? 32)%N.

(** [scheme_chars] *)
Definition is_scheme_char (c : ascii) : bool :=
  is_lower c || is_upper c || is_digit c
  || Ascii.eqb c "+" || Ascii.eqb c "-" || Ascii.eqb c ".".

(** [uses_params] *)
Definition uses_params : list string :=
  [EmptyString; "ftp"; "hdl"; "prospero"; "http"; "imap"; "https"; "shttp"; "rtsp";
   "rtspu"; "sip"; "sips"; "mms"; "sftp"; "tel"].

(** [for b in _UNSAFE_URL_BYTES_TO_REMOVE: url = url.replace(b, '')] *)
Definition remove_unsafe (url : string) : string :=
  remove_char "013" (remove_char "010" (remove_char "009" url)).

(** The scheme step of [urlsplit]: [(scheme, rest)]. *)
Definition split_scheme (url : string) : string * string :=
  match find ":" url, url with
  | Some i, String c0 _ =>
      if bool_decide (0 < i) && is_ascii_alpha c0 && all_chars is_scheme_char (take i url)
      then (lower (take i url), drop (S i) url)
      else (EmptyString, url)
  | _, _ => (EmptyString, url)
  end.

(** [_splitnetloc(url, start)] *)
Definition splitnetloc (url : string) (start : nat) : string * string :=
  let delim :=
    foldl (fun delim c =>
             match find_from c url start with
             | Some wdelim => Nat.min delim wdelim
             | None => delim
             end)
          (String.length url) ["/"; "?"; "#"] in
  (slice start delim url, drop delim url).

(** The netloc checks of [urlsplit] that raise [ValueError] before the
    fragment and the query are split off. *)
Definition brackets_ok (lib : UrlLib) (netloc : string) : bool :=
  if (contains "[" netloc && negb (contains "]" netloc))
     || (contains "]" netloc && negb (contains "[" netloc))
  then false
  else if contains "[" netloc && contains "]" netloc
       then bracketed_netloc_ok lib netloc
       else true.

(** [_checknetloc(netloc)] *)
Definition checknetloc (lib : UrlLib) (netloc : string) : bool :=
  if bool_decide (netloc = EmptyString) || isascii netloc then true
  else nfkc_netloc_ok lib netloc.

(** [url.split(c, 1)] under the guard [c in url]: [(url, rest)]; the
    second component keeps its previous value when [c] is absent. *)
Definition split_once (c url dflt : string) : string * string :=
  match partition c url with
  | Some (a, b) => (a, b)
  | None => (url, dflt)
  end.

(** [urlsplit(url)]: [(scheme, netloc, path, query, fragment)], [None]
    when [ValueError] is raised. *)
Definition urlsplit (lib : UrlLib) (url : string)
  : option (string * string * string * string * string) :=
  let url := lstrip is_c0_or_space url in
  let url := remove_unsafe url in
  let '(scheme, url) := split_scheme url in
  let '(netloc, url) :=
    if bool_decide (take 2 url = "//") then splitnetloc url 2 else (EmptyString, url) in
  if negb (brackets_ok lib netloc) then None
  else
    let '(url, fragment) := split_once "#" url EmptyString in
    let '(url, query) := split_once "?" url EmptyString in
    if negb (checknetloc lib netloc) then None
    else Some (scheme, netloc, url, query, fragment).

(** [_splitparams(url)], called when [';' in url] *)
Definition splitparams (url : string) : string * string :=
  let i :=
    if contains "/" url
    then match rfind "/" url with
         | Some k => find_from ";" url k
         | None => None
         end
    else find ";" url in
  match i with
  | Some i => (take i url, drop (S i) url)
  | None => (url, EmptyString)
  end.

(** [urlparse(url)] *)
Definition urlparse (lib : UrlLib) (url : string) : option ParseResult :=
  match urlsplit lib url with
  | None => None
  | Some (scheme, netloc, url, query, fragment) =>
      let '(url, params) :=
        if bool_decide (scheme ∈ uses_params) && contains ";" url
        then splitparams url else (url, EmptyString) in
      Some {| scheme := scheme; netloc := netloc; path := url;
              params := params; query := query; fragment := fragment |}
  end.

(** [_hexdig] and the table [_hextobyte] *)
Definition hex_val (c : ascii) : option N :=
  if is_digit c then Some (code c - 48)%N
  else if (65 <=? code c)%N && (code c <=? 70)%N then Some (code c - 55)%N
  else if (97 <=? code c)%N && (code c <=? 102)%N then Some (code c - 87)%N
  else None.

(** One element of [bits[1:]] in [unquote_to_bytes] *)
Definition unquote_item (item : string) : string :=
  match item with
  | String a (String b rest) =>
      match hex_val a, hex_val b with
      | Some x, Some y => String (ascii_of_N (16 * x + y)) rest
      | _, _ => "%" +:+ item
      end
  | _ => "%" +:+ item
  end.

(** [unquote_to_bytes(string)] *)
Definition unquote_to_bytes (s : string) : string :=
  match split "%" s with
  | [] => s
  | b0 :: bits => b0 +:+ join EmptyString (map unquote_item bits)
  end.

(** The loop of [unquote] over [_asciire.split(string)]: maximal runs of
    ASCII characters are percent-decoded and then decoded as UTF-8, the
    text between them is kept. [run] is the ASCII run read so far. *)
Definition flush_run (lib : UrlLib) (run : string) : string :=
  if bool_decide (run = EmptyString) then EmptyString
  else utf8_decode_replace lib (unquote_to_bytes run).

Fixpoint unquote_runs (lib : UrlLib) (run s : string) : string :=
  match s with
  | EmptyString => flush_run lib run
  | String c s' =>
      if is_ascii c then unquote_runs lib (run +:+ String c EmptyString) s'
      else flush_run lib run +:+ String c (unquote_runs lib EmptyString s')
  end.

(** [unquote(string)] *)
Definition unquote (lib : UrlLib) (s : string) : string :=
  if negb (contains "%" s) then s else unquote_runs lib EmptyString s.

(** The body of the loop of [parse_qsl] for one [name_value], with the
    default [keep_blank_values=False] and [strict_parsing=False]. *)
Definition parse_field (lib : UrlLib) (name_value : string) : option (string * string) :=
  if bool_decide (name_value = EmptyString) then None
  else match partition "=" name_value with
       | None => None
       | Some (n, v) =>
           if bool_decide (v = EmptyString) then None
           else Some (unquote lib (replace_char "+" " " n),
                      unquote lib (replace_char "+" " " v))
       end.

(** [parse_qsl(qs)] *)
Definition parse_qsl (lib : UrlLib) (qs : string) : list (string * string) :=
  let query_args := if bool_decide (qs = EmptyString) then [] else split "&" qs in
  omap (parse_field lib) query_args.

(** [parse_qs(qs)] *)
Definition parse_qs (lib : UrlLib) (qs : string) : gmap string (list string) :=
  foldl (fun parsed_result '(name, value) =>
           match parsed_result !! name with
           | Some l => <[name := l ++ [value]]> parsed_result
           | None => <[name := [value]]> parsed_result
           end)
        ∅ (parse_qsl lib qs).

End Url.

(** ** The program *)

Record VideoSummary := {
  video_id : string;
  title : option string;
  transcript : option string;
  summary : option string;
  error : option string
}.

(** [YouTubeSummarizer.extract_video_id].  Any exception in the body is
    caught and turned into [None]: this covers the [ValueError] of
    [urlparse] and the out-of-range index of [[-1]] and [[0]]. *)
Definition extract_video_id (lib : UrlLib) (url : string) : option string :=
  match Url.urlparse lib url with
  | None => None
  | Some parsed_url =>
      if bool_decide (netloc parsed_url = "youtu.be")
      then Some (PyStr.drop 1 (path parsed_url))
      else if bool_decide (netloc parsed_url ∈ ["youtube.com"; "www.youtube.com"])
      then
        if bool_decide (path parsed_url = "/watch")
        then
          let params := Url.parse_qs lib (query parsed_url) in
          match params !! "v" with
          | Some (v :: _) => Some v
          | Some [] => None
          | None => None
          end
        else if PyStr.contains "/embed/" (path parsed_url)
        then last (PyStr.split "/embed/" (path parsed_url))
        else if PyStr.contains "/v/" (path parsed_url)
        then last (PyStr.split "/v/" (path parsed_url))
        else None
      else None
  end.

(** ** External collaborators and the state they act on *)

(** A transcript segment as the transcript service returns it; [start] and
    [duration] stand for the floating-point timing fields. *)
Record Segment := {
  text : string;
  start : Z;
  duration : Z
}.

(** The two services, as functions of the request: [process_video] calls
    each of them at most once in a run. *)
Record Services := {
  (** [YouTubeTranscriptApi.get_transcript(video_id, languages=languages)],
      [None] when it raises *)
  api_get_transcript : string -> list string -> option (list Segment);
  (** [genai.GenerativeModel(model_name).generate_content(prompt).text],
      [None] when any of the three steps raises *)
  api_generate_content : string -> string -> option string
}.

(** What the program asks of the outside world, in the order it asks. *)
Inductive Event :=
| TranscriptRequest (video_id : string) (languages : list string)
| GenerationRequest (model_name prompt : string)
| MkdirRequest (p : list string)
| OpenWriteRequest (p : list string).

(** Where the operating system finds what a relative path names. *)
Inductive Resolution :=
| At (loc : list string)
| Outside
| NoSuchPath.

(** What the operating system answers for reasons that the directories and
    files below the working directory do not determine. *)
Record Host := {
  (** the request fails with an [OSError] whose cause lies outside the
      model: permissions, a name or a path that is too long, a read-only or
      a full device *)
  refuses : Event -> bool;
  (** where the rest of a path leads once [..] has left the working
      directory, given the directories below the working directory: to a
      place below it again ([At]), to a place that is not below it
      ([Outside]), or nowhere ([NoSuchPath]) *)
  beyond : gset (list string) -> list string -> Resolution;
  (** the number of bytes that reach the file opened under this path before
      a write fails; [None] when no write fails *)
  write_limit : list string -> option nat
}.

(** The part of the file system below the working directory: its
    directories and its regular files, each under the list of names that
    leads to it from the working directory, without [..] and without
    symbolic links; and the host that holds it. *)
Record FileSystem := {
  dirs : gset (list string);
  files : gmap (list string) string;
  host : Host
}.

Record World := {
  events : list Event;
  fs : FileSystem
}.

Definition M (A : Type) : Type := World -> A * World.

Definition ret {A} (a : A) : M A := fun w => (a, w).

Definition bind {A B} (m : M A) (k : A -> M B) : M B :=
  fun w => let '(a, w') := m w in k a w'.

Notation "'let*' x ':=' m 'in' k" := (bind m (fun x => k))
  (at level 10, x name, m at level 100, k at level 200).

Definition emit (e : Event) : M unit :=
  fun w => (tt, {| events := events w ++ [e]; fs := fs w |}).

Definition get_fs : M FileSystem := fun w => (fs w, w).

Definition put_fs (f : FileSystem) : M unit :=
  fun w => (tt, {| events := events w; fs := f |}).

Module Os.

(** [Path(s)] for a relative [s]: empty components and [.] are dropped. *)
Definition path_of_str (s : string) : list string :=
  filter (fun x => x <> EmptyString /\ x <> ".") (PyStr.split "/" s).

(** [p / s] for a relative [s] *)
Definition path_div (p : list string) (s : string) : list string :=
  p ++ path_of_str s.

Definition has_nul (p : list string) : bool :=
  existsb (PyStr.contains (String "000" EmptyString)) p.

(** [loc] is a directory; the working directory itself always is. *)
Definition is_dir (f : FileSystem) (loc : list string) : bool :=
  bool_decide (loc = []) || bool_decide (loc ∈ dirs f).

(** Path resolution as a POSIX system does it, one component after the
    other, from the directory at [cur]: each component is looked up in a
    directory, which has to exist, and [..] leads to the parent of that
    directory; [pathlib] hands the components to [open] as they are,
    without collapsing [..].  The components are those of a [pathlib]
    path: none is empty, none is [.]. *)
Fixpoint resolve_from (f : FileSystem) (cur comps : list string) : Resolution :=
  match comps with
  | [] => At cur
  | c :: rest =>
      if negb (is_dir f cur) then NoSuchPath
      else if bool_decide (c = "..") then
        match cur with
        | [] => beyond (host f) (dirs f) rest
        | _ :: _ => resolve_from f (removelast cur) rest
        end
      else resolve_from f (cur ++ [c]) rest
  end.

(** Resolution of a relative path: it starts at the working directory. *)
Definition resolve (f : FileSystem) (p : list string) : Resolution :=
  resolve_from f [] p.

(** The file system after [p.mkdir(exist_ok=True)], [None] when an
    exception is raised.  An existing directory is accepted; an existing
    file at that place, or a missing parent, is an error. *)
Definition mkdir (f : FileSystem) (p : list string) : option FileSystem :=
  if has_nul p then None
  else if refuses (host f) (MkdirRequest p) then None
  else
    match resolve f p with
    | At loc =>
        if is_dir f loc then Some f
        else if bool_decide (is_Some (files f !! loc)) then None
        else Some {| dirs := dirs f ∪ {[loc]}; files := files f; host := host f |}
    | Outside => Some f
    | NoSuchPath => None
    end.

(** What [open(p, 'w', encoding='utf-8')] does: it raises, or it opens a
    file that is not below the working directory, or it creates or
    truncates the file at a place below the working directory. *)
Inductive Opening :=
| Raises
| Elsewhere
| Opens (loc : list string).

Definition open_w (f : FileSystem) (p : list string) : Opening :=
  if has_nul p then Raises
  else if refuses (host f) (OpenWriteRequest p) then Raises
  else
    match resolve f p with
    | At loc => if is_dir f loc then Raises else Opens loc
    | Outside => Elsewhere
    | NoSuchPath => Raises
    end.

(** The bytes of [data] that reach the file opened under [p]: all of
    them, unless a write fails on the way. *)
Definition written (f : FileSystem) (p : list string) (data : string) : string :=
  match write_limit (host f) p with
  | Some n => PyStr.take n data
  | None => data
  end.

(** The file system after [open(p, 'w', encoding='utf-8')], a write of
    [data] and the close, [None] when [open] raises.  Mode ['w'] creates
    the file or truncates the one that is there. *)
Definition create (f : FileSystem) (p : list string) (data : string)
  : option FileSystem :=
  match open_w f p with
  | Opens loc =>
      Some {| dirs := dirs f; files := <[loc := written f p data]> (files f);
              host := host f |}
  | Elsewhere => Some f
  | Raises => None
  end.

(** [p.mkdir(exist_ok=True)]: [false] when it raises. *)
Definition mkdir_exist_ok (p : list string) : M bool :=
  let* _ := emit (MkdirRequest p) in
  let* f := get_fs in
  match mkdir f p with
  | Some f' => let* _ := put_fs f' in ret true
  | None => ret false
  end.

(** [with open(p, 'w', encoding='utf-8') as fh: fh.write(data)]:
    [false] when [open] or a write raises. *)
Definition write_text (p : list string) (data : string) : M bool :=
  let* _ := emit (OpenWriteRequest p) in
  let* f := get_fs in
  match create f p data with
  | Some f' => let* _ := put_fs f' in ret (bool_decide (written f p data = data))
  | None => ret false
  end.

End Os.

(** ** [json.dump(obj, f, ensure_ascii=False, indent=2)] for a flat object *)

Module Json.

Inductive value :=
| Null
| Str (s : string).

Definition of_optional (o : option string) : value :=
  match o with
  | None => Null
  | Some s => Str s
  end.

Definition quote : string := String "034" EmptyString.
Definition backslash : string := String "092" EmptyString.
Definition newline : string := String "010" EmptyString.

Definition hex_digit (n : N) : ascii :=
  if (n <? 10)%N then ascii_of_N (48 + n) else ascii_of_N (87 + n).

(** [ESCAPE_DCT] of [json.encoder] *)
Definition escape_char (c : ascii) : string :=
  let n := PyStr.code c in
  if (n =? 34)%N then backslash +:+ quote
  else if (n =? 92)%N then backslash +:+ backslash
  else if (n =? 10)%N then backslash +:+ "n"
  else if (n =? 13)%N then backslash +:+ "r"
  else if (n =? 9)%N then backslash +:+ "t"
  else if (n =? 8)%N then backslash +:+ "b"
  else if (n =? 12)%N then backslash +:+ "f"
  else if (n <? 32)%N
       then backslash +:+ "u00"
            +:+ String (hex_digit (n / 16)) (String (hex_digit (n mod 16)) EmptyString)
  else String c EmptyString.

Fixpoint escape (s : string) : string :=
  match s with
  | EmptyString => EmptyString
  | String c s' => escape_char c +:+ escape s'
  end.

(** [encode_basestring(s)], the encoder chosen by [ensure_ascii=False] *)
Definition encode_basestring (s : string) : string :=
  quote +:+ escape s +:+ quote.

Definition encode_value (v : value) : string :=
  match v with
  | Null => "null"
  | Str s => encode_basestring s
  end.

Definition encode_item (kv : string * value) : string :=
  encode_basestring (fst kv) +:+ ": " +:+ encode_value (snd kv).

(** The text written for a [dict] of strings and [None]s, keys in
    insertion order, at indentation level 0 with [indent=2]. *)
Definition dumps_indent2 (items : list (string * value)) : string :=
  match items with
  | [] => "{}"
  | _ =>
      "{" +:+ newline +:+ "  "
      +:+ PyStr.join ("," +:+ newline +:+ "  ") (map encode_item items)
      +:+ newline +:+ "}"
  end.

End Json.

(** ** [YouTubeSummarizer] *)

Record YouTubeSummarizer := {
  model_name : string
}.

Module Prompt.
Definition template_lines : list string :=
  [ EmptyString;
    "        Generate a detailed and structured analysis of the following transcript, focusing on breaking down each section in-depth, explaining technical concepts, connecting ideas, and providing recommendations for further learning at the end.";
    EmptyString;
    "        1. **Main Title and Context**:";
    "          - **Catchy Title**: Create a title that concisely and attractively captures the essence of the content. The title should be relevant to the topic and catch the reader's attention.";
    "          - **Brief Context**: Provide a brief explanation of the general context of the topic discussed in the transcript. Be sure to include the main purpose of the content, the area of focus, and the significance of the topic. Why is it relevant now, and who might benefit from this information?";
    EmptyString;
    "        2. **Key Points**:";
    "          - **Main Ideas and Concepts**: Identify and list the most important points discussed in the transcript. Explain each concept in detail, highlighting the most relevant ones and how they contribute to the overall message of the content.";
    "          - **Technical Explanations**: Break down any technical terms or specialized concepts. Provide clear, understandable definitions followed by concrete examples that illustrate how these terms are applied in real situations. If abstract concepts are mentioned, provide an analogy or simplified explanation.";
    "          - **Relevant Examples**: Describe the examples provided in the content. Be sure to explain how these examples illustrate the key points, and how they can be applied in different practical contexts. If no explicit examples are provided, create your own that reflect the concepts discussed.";
    EmptyString;
    "        3. **Structure and Development**:";
    "          - **Logical Progression of Ideas**: Explain how the content develops logically. How are ideas introduced and connected? How do the ideas evolve as the transcript progresses? Detail how the author builds their argument.";
    "          - **Connection Between Concepts**: Point out how different concepts are interconnected throughout the content. How do the key points, technical explanations, and examples link together? How do they support each other to build a deeper understanding of the topic?";
    "          - **Arguments and Evidence**: Summarize the main arguments presented. Explain how each one is supported by evidence, whether through data, facts, examples, or quotes. Detail the validity of the evidence presented and how it strengthens the argument.";
    EmptyString;
    "        4. **Conclusions and Applications**:";
    "          - **Main Ideas**: Highlight the most important conclusions without merely summarizing them. Explain why these conclusions are crucial for understanding the topic and how they contribute to the general understanding.";
    "          - **Practical Implications**: Discuss the practical implications of the concepts discussed. How can these concepts or ideas be applied in the real world? Provide examples of industries, professions, or fields where this information might be useful and how it would change practices in those contexts.";
    "          - **Recommendations or Next Steps**: Based on the conclusions, suggest possible next steps or recommendations for the reader. What should the reader do with this information? How can they implement what they've learned in their professional or personal life? If relevant, suggest areas for further research or exploration.";
    EmptyString;
    "        5. **Recommendations for Further Learning**:";
    "          - **Areas to Dive Deeper**: Based on the concepts discussed, provide key areas to explore further. For example, if data analysis techniques are mentioned, suggest which algorithms or methods to study. If a technical concept is discussed, what other approaches or related theories could be explored?";
    "          - **Resources for Study**: Provide links to additional resources, such as books, online courses, academic papers, or specific tools. If the content deals with a technical topic like programming or data science, suggest learning platforms, practical tutorials, or software that could help master these concepts.";
    "          - **Study Tips and Best Practices**: Offer advice on how to approach learning the key concepts discussed in the transcript. This may include study strategies, best practices for applying the content, or warnings about common mistakes beginners often make in that field.";
    EmptyString;
    "        Transcript:";
    "        " ].
End Prompt.

(** Python truth value of an [Optional[str]]: [None] and the empty string
    are false. *)
Definition truthy (o : option string) : bool :=
  match o with
  | None => false
  | Some s => negb (bool_decide (s = EmptyString))
  end.

Definition new_summary (vid : string) : VideoSummary :=
  {| video_id := vid; title := None; transcript := None; summary := None; error := None |}.

Definition set_error (s : VideoSummary) (e : string) : VideoSummary :=
  {| video_id := video_id s; title := title s; transcript := transcript s;
     summary := summary s; error := Some e |}.

Definition set_transcript (s : VideoSummary) (t : string) : VideoSummary :=
  {| video_id := video_id s; title := title s; transcript := Some t;
     summary := summary s; error := error s |}.

Definition set_summary (s : VideoSummary) (t : string) : VideoSummary :=
  {| video_id := video_id s; title := title s; transcript := transcript s;
     summary := Some t; error := error s |}.

Section Summarizer.
Context (lib : UrlLib) (svc : Services).

(** [get_transcript(video_id, languages=None)] *)
Definition get_transcript (vid : string) (languages : option (list string))
  : M (option string) :=
  let languages := default ["es"; "en"] languages in
  let* _ := emit (TranscriptRequest vid languages) in
  match api_get_transcript svc vid languages with
  | Some segments => ret (Some (PyStr.join " " (map text segments)))
  | None => ret None
  end.

(** [create_summary_prompt(transcript)]: the f-string, whose only
    replacement field is [{transcript}]. *)
Definition create_summary_prompt (transcript : string) : string :=
  PyStr.join Json.newline Prompt.template_lines
  +:+ transcript +:+ Json.newline +:+ "        ".

(** [get_gemini_response(prompt)] *)
Definition get_gemini_response (self : YouTubeSummarizer) (prompt : string)
  : M (option string) :=
  let* _ := emit (GenerationRequest (model_name self) prompt) in
  ret (api_generate_content svc (model_name self) prompt).

(** The dictionary built by [_save_summary], in insertion order *)
Definition summary_dict (s : VideoSummary) : list (string * Json.value) :=
  [ ("video_id", Json.Str (video_id s));
    ("transcript", Json.of_optional (transcript s));
    ("summary", Json.of_optional (summary s));
    ("error", Json.of_optional (error s)) ].

Definition output_dir : list string := Os.path_of_str "summaries".

Definition output_file (s : VideoSummary) : list string :=
  Os.path_div output_dir ("summary_" +:+ video_id s +:+ ".json").

(** [_save_summary(summary)]: an exception of [mkdir] or [open] ends the
    [try] block and is swallowed. *)
Definition _save_summary (s : VideoSummary) : M unit :=
  let* made := Os.mkdir_exist_ok output_dir in
  if made
  then let* _ := Os.write_text (output_file s) (Json.dumps_indent2 (summary_dict s)) in ret tt
  else ret tt.

(** [process_video(url, save_to_file)] *)
Definition process_video (self : YouTubeSummarizer) (url : string) (save_to_file : bool)
  : M VideoSummary :=
  let video_id := extract_video_id lib url in
  match video_id with
  | Some vid =>
      if negb (truthy video_id)
      then ret (set_error (new_summary EmptyString) "Invalid YouTube URL")
      else
        let summary := new_summary vid in
        let* transcript := get_transcript vid None in
        match transcript with
        | Some t =>
            if negb (truthy transcript)
            then ret (set_error summary "Failed to fetch transcript")
            else
              let summary := set_transcript summary t in
              let prompt := create_summary_prompt t in
              let* summary_text := get_gemini_response self prompt in
              match summary_text with
              | Some st =>
                  if negb (truthy summary_text)
                  then ret (set_error summary "Failed to generate summary")
                  else
                    let summary := set_summary summary st in
                    let* _ := (if save_to_file then _save_summary summary else ret tt) in
                    ret summary
              | None => ret (set_error summary "Failed to generate summary")
              end
        | None => ret (set_error summary "Failed to fetch transcript")
        end
  | None => ret (set_error (new_summary EmptyString) "Invalid YouTube URL")
  end.

End Summarizer.

(** ** Notions in which the properties are stated *)

(** The two host patterns and the URL shapes, read off the parsed URL; the
    network location is compared as a whole, as the code compares it. *)
Definition short_link_host (p : ParseResult) : Prop :=
  netloc p = "youtu.be".

Definition canonical_host (p : ParseResult) : Prop :=
  netloc p = "youtube.com" \/ netloc p = "www.youtube.com".

(** [field] is a query field [name=raw] whose name, once decoded, is [v]. *)
Definition v_field (lib : UrlLib) (field raw : string) : Prop :=
  exists name,
    PyStr.partition "=" field = Some (name, raw)
    /\ Url.unquote lib (PyStr.replace_char "+" " " name) = "v".

(** The query carries a [v] parameter, possibly with an empty value ... *)
Definition has_v_param (lib : UrlLib) (q : string) : Prop :=
  exists field raw, field ∈ PyStr.split "&" q /\ v_field lib field raw.

(** ... and one whose value is not empty. *)
Definition has_nonblank_v_param (lib : UrlLib) (q : string) : Prop :=
  exists field raw,
    field ∈ PyStr.split "&" q /\ v_field lib field raw /\ raw <> EmptyString.

(** The host name of a network location, as [urllib] reads it off the
    [netloc] (its [hostname] attribute, brackets and zones of IPv6 literals
    aside): what follows the user information, up to the port, in lower
    case. *)
Definition hostname (netloc : string) : string :=
  let hostinfo :=
    match PyStr.rfind "@" netloc with
    | Some i => PyStr.drop (S i) netloc
    | None => netloc
    end in
  PyStr.lower
    match PyStr.partition ":" hostinfo with
    | Some (h, _) => h
    | None => hostinfo
    end.

(** Supported shapes as the specification lists them: the short-link host;
    the canonical host with [/watch?v=], [/embed/] or [/v/]. *)
Definition supported_shape_as_stated (lib : UrlLib) (p : ParseResult) : Prop :=
  hostname (netloc p) = "youtu.be"
  \/ (hostname (netloc p) = "youtube.com" \/ hostname (netloc p) = "www.youtube.com")
     /\ (path p = "/watch" /\ has_v_param lib (query p)
         \/ PyStr.contains "/embed/" (path p) = true
         \/ PyStr.contains "/v/" (path p) = true).

(** Supported shapes as the code takes them: the network location is
    compared as a whole, and the [v] parameter has a value. *)
Definition supported_shape (lib : UrlLib) (p : ParseResult) : Prop :=
  short_link_host p
  \/ canonical_host p
     /\ (path p = "/watch" /\ has_nonblank_v_param lib (query p)
         \/ PyStr.contains "/embed/" (path p) = true
         \/ PyStr.contains "/v/" (path p) = true).

(** In [a +:+ m +:+ b], the occurrence of [m] that follows [a] is the
    first one: [m] occurs in [a +:+ m] at its end only. *)
Definition first_occurrence (m a : string) : Prop :=
  forall x y, a +:+ m = x +:+ m +:+ y -> y = EmptyString.

(** [t] is the last piece of [s] cut at the marker [m] the way
    [s.split(m)] cuts: the text is scanned from the left, each search for
    [m] starts where the occurrence found before ends, and [t] is what
    follows the last occurrence found; a text without [m] is its own last
    piece. *)
Inductive last_piece (m : string) : string -> string -> Prop :=
| last_piece_whole s :
    (forall a b, s <> a +:+ m +:+ b) -> last_piece m s s
| last_piece_next a b t :
    first_occurrence m a -> last_piece m b t -> last_piece m (a +:+ m +:+ b) t.

(** [id] is the decoded value of the first field of the query [q] that
    gives [v] a value that is not empty. *)
Definition first_v_value (lib : UrlLib) (q id : string) : Prop :=
  exists pre field post raw,
    PyStr.split "&" q = pre ++ field :: post
    /\ (forall g raw', g ∈ pre -> v_field lib g raw' -> raw' = EmptyString)
    /\ v_field lib field raw /\ raw <> EmptyString
    /\ id = Url.unquote lib (PyStr.replace_char "+" " " raw).

(** The identifier that each supported shape carries. *)
Definition expected_identifier (lib : UrlLib) (p : ParseResult) (id : string) : Prop :=
  short_link_host p /\ id = PyStr.drop 1 (path p)
  \/ canonical_host p
     /\ (path p = "/watch" /\ first_v_value lib (query p) id
         \/ PyStr.contains "/embed/" (path p) = true
            /\ last_piece "/embed/" (path p) id
         \/ PyStr.contains "/embed/" (path p) = false
            /\ PyStr.contains "/v/" (path p) = true
            /\ last_piece "/v/" (path p) id).

(** The values that a list of decoded [(name, value)] pairs gives to [k],
    in order. *)
Definition values_of (k : string) (pairs : list (string * string)) : list string :=
  (filter (fun p => p.1 = k) pairs).*2.

(** Segments of a URL path: the pieces between slashes, after the leading
    slash. *)
Definition path_segments (path : string) : list string :=
  PyStr.split "/" (PyStr.drop 1 path).

Definition first_segment (path : string) : option string :=
  head (path_segments path).

Definition trailing_segment (path : string) : option string :=
  last (path_segments path).

(** [t] occurs in [s] as a contiguous substring. *)
Definition is_substring (t s : string) : Prop :=
  exists pre post, s = pre +:+ t +:+ post.

(** Terminal states of a record.  [Success] and [Failed_clean] are the two
    states of the specification; [Failed] only asks for an error and no
    summary. *)
Definition Success (r : VideoSummary) : Prop :=
  transcript r <> None /\ summary r <> None /\ error r = None.

Definition Failed_clean (r : VideoSummary) : Prop :=
  error r <> None /\ transcript r = None /\ summary r = None.

Definition Failed (r : VideoSummary) : Prop :=
  error r <> None /\ summary r = None.

Definition is_file_request (e : Event) : bool :=
  match e with
  | MkdirRequest _ | OpenWriteRequest _ => true
  | TranscriptRequest _ _ | GenerationRequest _ _ => false
  end.

Definition is_service_request (e : Event) : bool := negb (is_file_request e).

(** The world after the requests [evs] have been made. *)
Definition after (w : World) (evs : list Event) : World :=
  {| events := events w ++ evs; fs := fs w |}.

(** A video identifier that is a plain file name: no slash, no NUL. *)
Definition plain_name (vid : string) : bool :=
  negb (PyStr.contains "/" vid) && negb (PyStr.contains (String "000" EmptyString) vid).

(** The records [process_video] returns on its four ways out. *)
Definition invalid_url_record : VideoSummary :=
  {| video_id := EmptyString; title := None; transcript := None; summary := None;
     error := Some "Invalid YouTube URL" |}.

Definition no_transcript_record (vid : string) : VideoSummary :=
  {| video_id := vid; title := None; transcript := None; summary := None;
     error := Some "Failed to fetch transcript" |}.

Definition no_summary_record (vid t : string) : VideoSummary :=
  {| video_id := vid; title := None; transcript := Some t; summary := None;
     error := Some "Failed to generate summary" |}.

Definition success_record (vid t st : string) : VideoSummary :=
  {| video_id := vid; title := None; transcript := Some t; summary := Some st;
     error := None |}.

(** The JSON document of a record and the file system that
    [_save_summary] leaves behind. *)
Definition document (s : VideoSummary) : string :=
  Json.dumps_indent2 (summary_dict s).

Definition saved_fs (s : VideoSummary) (f : FileSystem) : FileSystem :=
  match Os.mkdir f output_dir with
  | Some f1 =>
      match Os.create f1 (output_file s) (document s) with
      | Some f2 => f2
      | None => f1
      end
  | None => f
  end.

(** The save of [s] on the file system [f] goes through, and the file is at
    [loc]: [mkdir] returns, [open] creates or truncates the file at [loc],
    and the whole document is written. *)
Definition persisted (s : VideoSummary) (f : FileSystem) (loc : list string) : Prop :=
  exists f1,
    Os.mkdir f output_dir = Some f1
    /\ Os.open_w f1 (output_file s) = Os.Opens loc
    /\ Os.written f1 (output_file s) (document s) = document s.

(** The transcript that [get_transcript] hands to [process_video]. *)
Definition fetched_transcript (svc : Services) (vid : string) : option string :=
  match api_get_transcript svc vid ["es"; "en"] with
  | Some segments => Some (PyStr.join " " (map text segments))
  | None => None
  end.

(** ** Concrete collaborators for the examples *)

(** A library instance for the example URLs.  They are ASCII, without
    brackets and without percent escapes, so none of its three components is
    consulted on them. *)
Definition ascii_lib : UrlLib :=
  {| bracketed_netloc_ok := fun _ => true;
     nfkc_netloc_ok := fun _ => true;
     utf8_decode_replace := fun s => s |}.

Definition hello_world : list Segment :=
  [ {| text := "Hello"; start := 0; duration := 1 |};
    {| text := "world"; start := 1; duration := 1 |} ].

(** A transcript service that knows the video [abc123] only, with a
    generation service that answers ... *)
Definition demo_services : Services :=
  {| api_get_transcript := fun vid _ =>
       if bool_decide (vid = "abc123") then Some hello_world else None;
     api_generate_content := fun _ _ => Some "A summary." |}.

(** ... and with one that fails. *)
Definition failing_generation : Services :=
  {| api_get_transcript := api_get_transcript demo_services;
     api_generate_content := fun _ _ => None |}.

Definition gemini_pro : YouTubeSummarizer := {| model_name := "gemini-pro" |}.

(** A host that refuses a name of more than 255 bytes, as the usual Linux
    file systems do, and nothing else; on it no write fails, and a path that
    leaves the working directory does not come back. *)
Definition linux_host : Host :=
  {| refuses := fun e =>
       match e with
       | MkdirRequest p | OpenWriteRequest p =>
           existsb (fun c => 255 <? String.length c) p
       | TranscriptRequest _ _ | GenerationRequest _ _ => false
       end;
     beyond := fun _ _ => Outside;
     write_limit := fun _ => None |}.

Definition empty_world : World :=
  {| events := []; fs := {| dirs := ∅; files := ∅; host := linux_host |} |}.

(** ** The constructor and the driver *)

(** [YouTubeSummarizer.configure_gemini(api_key)]: [genai.configure] either
    returns, or raises, in which case the exception is logged and raised
    again ([None]).  [configure_ok] tells which. *)
Definition configure_gemini (configure_ok : string -> bool) (api_key : string)
  : option unit :=
  if configure_ok api_key then Some tt else None.

(** [YouTubeSummarizer(api_key, model_name='gemini-pro')]: [None] when the
    constructor raises. *)
Definition new_summarizer (configure_ok : string -> bool) (api_key : string)
    (model : option string) : option YouTubeSummarizer :=
  let self := {| model_name := default "gemini-pro" model |} in
  match configure_gemini configure_ok api_key with
  | Some _ => Some self
  | None => None
  end.

(** [str(x)] for an [Optional[str]] inside an f-string *)
Definition str_of_optional (o : option string) : string :=
  default "None" o.

(** [main()]: the lines it prints; [result] is the [summary] of the
    source.  An exception of the constructor is caught by the [try] of
    [main], which then prints nothing. *)
Definition main (lib : UrlLib) (svc : Services) (configure_ok : string -> bool)
  : M (list string) :=
  let API_KEY := "api-------------" in
  match new_summarizer configure_ok API_KEY None with
  | Some summarizer =>
      let url := "https:---------" in
      let* result := process_video lib svc summarizer url true in
      if truthy (error result)
      then ret ["Error: " +:+ str_of_optional (error result)]
      else ret ["Video ID: " +:+ video_id result;
                "Transcript: " +:+ str_of_optional (transcript result);
                "Summary: " +:+ str_of_optional (summary result)]
  | None => ret []
  end.

(** ** Further notions in which properties are stated *)

(** [s.count(c)] for a one-character [c] *)
Fixpoint count_char (c : ascii) (s : string) : nat :=
  match s with
  | EmptyString => 0
  | String d s' => (if Ascii.eqb c d then 1 else 0) + count_char c s'
  end.

(** A reader for what [Json.encode_basestring] writes after the opening
    quote: the text up to the closing quote, and what follows it.  It is not
    part of the program; it serves to show that the document loses
    nothing. *)
Definition simple_escape (d : ascii) : option ascii :=
  if Ascii.eqb d "034" then Some "034"%char
  else if Ascii.eqb d "092" then Some "092"%char
  else if Ascii.eqb d "n" then Some "010"%char
  else if Ascii.eqb d "r" then Some "013"%char
  else if Ascii.eqb d "t" then Some "009"%char
  else if Ascii.eqb d "b" then Some "008"%char
  else if Ascii.eqb d "f" then Some "012"%char
  else None.

Definition read_cons (c : ascii) (r : option (string * string)) : option (string * string) :=
  match r with
  | Some (t, rest) => Some (String c t, rest)
  | None => None
  end.

Fixpoint read_escaped (s : string) : option (string * string) :=
  match s with
  | EmptyString => None
  | String c r =>
      if Ascii.eqb c "034" then Some (EmptyString, r)
      else if Ascii.eqb c "092" then
        match r with
        | String d r' =>
            if Ascii.eqb d "u" then
              match r' with
              | String h1 (String h2 (String h3 (String h4 r''))) =>
                  match Url.hex_val h1, Url.hex_val h2, Url.hex_val h3, Url.hex_val h4 with
                  | Some 0%N, Some 0%N, Some x, Some y =>
                      read_cons (ascii_of_N (16 * x + y)) (read_escaped r'')
                  | _, _, _, _ => None
                  end
              | _ => None
              end
            else
              match simple_escape d with
              | Some e => read_cons e (read_escaped r')
              | None => None
              end
        | EmptyString => None
        end
      else read_cons c (read_escaped r)
  end.

(** A reader for what [Json.encode_value] writes. *)
Definition read_value (s : string) : option (Json.value * string) :=
  match s with
  | String c r =>
      if Ascii.eqb c "034" then
        match read_escaped r with
        | Some (t, rest) => Some (Json.Str t, rest)
        | None => None
        end
      else if String.prefix "null" s then Some (Json.Null, PyStr.drop 4 s)
      else None
  | EmptyString => None
  end.

(** The characters that [urlsplit] removes wherever they stand: tab, line
    feed and carriage return. *)
Definition is_tab_or_newline (c : ascii) : bool :=
  Ascii.eqb c "009" || Ascii.eqb c "010" || Ascii.eqb c "013".

(** A reader for the whole document, built on [read_escaped]: a brace, one
    member per line after two spaces, a comma between members, and the
    closing brace on a line of its own.  Like [read_escaped], it is not part
    of the program. *)
Definition expect (lit s : string) : option string :=
  if String.prefix lit s then Some (PyStr.drop (String.length lit) s) else None.

Definition read_string (s : string) : option (string * string) :=
  match s with
  | String c r => if Ascii.eqb c "034" then read_escaped r else None
  | EmptyString => None
  end.

(** A text between quotes, or [null] *)
Definition read_optional (s : string) : option (option string * string) :=
  match read_string s with
  | Some (t, rest) => Some (Some t, rest)
  | None =>
      match expect "null" s with
      | Some rest => Some (None, rest)
      | None => None
      end
  end.

Definition read_member (s : string) : option ((string * option string) * string) :=
  match expect "  " s with
  | Some r1 =>
      match read_string r1 with
      | Some (k, r2) =>
          match expect ": " r2 with
          | Some r3 =>
              match read_optional r3 with
              | Some (v, r4) => Some ((k, v), r4)
              | None => None
              end
          | None => None
          end
      | None => None
      end
  | None => None
  end.

(** At most [n] members, up to the end of the document *)
Fixpoint read_members (n : nat) (s : string) : option (list (string * option string)) :=
  match n with
  | 0 => None
  | S n' =>
      match read_member s with
      | Some (m, r) =>
          match expect (String "," (String "010" EmptyString)) r with
          | Some r' =>
              match read_members n' r' with
              | Some ms => Some (m :: ms)
              | None => None
              end
          | None =>
              if bool_decide (r = String "010" "}") then Some [m] else None
          end
      | None => None
      end
  end.

Definition read_document (s : string) : option (list (string * option string)) :=
  match expect (String "{" (String "010" EmptyString)) s with
  | Some r => read_members (String.length s) r
  | None => None
  end.

(** The characters that stand for themselves between the quotes of a JSON
    text written with [ensure_ascii=False]: all but the control characters,
    the quote and the backslash. *)
Definition unescaped (c : ascii) : bool :=
  (32 <=? PyStr.code c)%N && negb (PyStr.code c =? 34)%N && negb (PyStr.code c =? 92)%N.

(** * Properties *)

Section StringLemmas.
Import PyStr.

Lemma str_app_cons c s t : String c s +:+ t = String c (s +:+ t).
Proof. reflexivity. Qed.

Lemma str_app_nil_l s : EmptyString +:+ s = s.
Proof. reflexivity. Qed.

Lemma str_app_nil_r s : s +:+ EmptyString = s.
Proof. induction s as [|c s IH]; [reflexivity|]. rewrite str_app_cons, IH. reflexivity. Qed.

Lemma str_app_assoc s t u : (s +:+ t) +:+ u = s +:+ (t +:+ u).
Proof. induction s as [|c s IH]; [reflexivity|]. rewrite !str_app_cons, IH. reflexivity. Qed.

Lemma str_length_app s t : String.length (s +:+ t) = String.length s + String.length t.
Proof. induction s as [|c s IH]; [reflexivity|]. rewrite str_app_cons. simpl. rewrite IH. reflexivity. Qed.

Lemma prefix_nil_l s : String.prefix EmptyString s = true.
Proof. destruct s; reflexivity. Qed.

Lemma prefix_cons c p d s :
  String.prefix (String c p) (String d s) = bool_decide (c = d) && String.prefix p s.
Proof. simpl. destruct (ascii_dec c d) as [->|Hne].
  - rewrite bool_decide_eq_true_2 by reflexivity. reflexivity.
  - rewrite bool_decide_eq_false_2 by assumption. reflexivity.
Qed.

Lemma prefix_spec p s : String.prefix p s = true <-> exists t, s = p +:+ t.
Proof.
  revert s. induction p as [|c p IH]; intros s.
  - rewrite prefix_nil_l. split; [exists s; reflexivity | reflexivity].
  - destruct s as [|d s].
    + simpl. split; [discriminate | intros [t Ht]; discriminate].
    + rewrite prefix_cons, andb_true_iff, bool_decide_eq_true, IH.
      split.
      * intros [-> [t ->]]. exists t. reflexivity.
      * intros [t Ht]. rewrite str_app_cons in Ht. injection Ht as -> ->. eauto.
Qed.

Lemma drop_app_length p t : drop (String.length p) (p +:+ t) = t.
Proof. induction p as [|c p IH]; [destruct t; reflexivity|]. rewrite str_app_cons. simpl. exact IH. Qed.

(** [partition] splits at an occurrence of the separator... *)
Lemma partition_Some sep s a b :
  partition sep s = Some (a, b) -> s = a +:+ sep +:+ b.
Proof.
  revert a b. induction s as [|c s IH]; intros a b.
  - cbn [partition]. destruct (String.prefix sep EmptyString) eqn:Hp; [|discriminate].
    intros [= <- <-]. apply prefix_spec in Hp as [t Ht].
    destruct sep; [reflexivity | rewrite str_app_cons in Ht; discriminate].
  - cbn [partition]. destruct (String.prefix sep (String c s)) eqn:Hp.
    + intros [= <- <-]. apply prefix_spec in Hp as [t Ht].
      rewrite Ht, drop_app_length. reflexivity.
    + destruct (partition sep s) as [[a' b']|]; [|discriminate].
      intros [= <- <-]. rewrite str_app_cons. f_equal. apply IH. reflexivity.
Qed.

(** ... and that occurrence is the first one. *)
Lemma partition_None sep s a b :
  partition sep s = None -> s <> a +:+ sep +:+ b.
Proof.
  revert a. induction s as [|c s IH]; intros a.
  - cbn [partition]. destruct (String.prefix sep EmptyString) eqn:Hp; [discriminate|].
    intros _ Heq. destruct a; [|discriminate]. rewrite str_app_nil_l in Heq.
    assert (String.prefix sep EmptyString = true) by (apply prefix_spec; eauto).
    congruence.
  - cbn [partition]. destruct (String.prefix sep (String c s)) eqn:Hp; [discriminate|].
    destruct (partition sep s) as [[a' b']|] eqn:E; [discriminate|].
    intros _ Heq. destruct a as [|d a].
    + rewrite str_app_nil_l in Heq.
      assert (String.prefix sep (String c s) = true) by (apply prefix_spec; eauto).
      congruence.
    + rewrite str_app_cons in Heq. injection Heq as -> ->. eapply IH; eauto.
Qed.

Lemma contains_app sub pre post : contains sub (pre +:+ sub +:+ post) = true.
Proof.
  unfold contains. destruct (partition sub (pre +:+ sub +:+ post)) eqn:E; [reflexivity|].
  exfalso. eapply partition_None; eauto.
Qed.

Lemma contains_true sub s : contains sub s = true <-> exists a b, s = a +:+ sub +:+ b.
Proof.
  split.
  - unfold contains. destruct (partition sub s) as [[a b]|] eqn:E; [|discriminate].
    intros _. exists a, b. by apply partition_Some.
  - intros (a & b & ->). apply contains_app.
Qed.

Lemma split_step c r s :
  split (String c r) s =
  match partition (String c r) s with
  | Some (a, b) => a :: split (String c r) b
  | None => [s]
  end.
Proof.
  rewrite split_equation_2.
  destruct (inspect (partition (String c r) s)) as [[[a b]|] e].
  - rewrite split_clause_2_equation_1, e. reflexivity.
  - rewrite split_clause_2_equation_2, e. reflexivity.
Qed.


Lemma split_no_sep c r s :
  contains (String c r) s = false -> split (String c r) s = [s].
Proof.
  unfold contains. rewrite split_step.
  destruct (partition (String c r) s) as [[a b]|]; [discriminate | reflexivity].
Qed.

(** The last piece of [s.split(sep)] is what follows the last occurrence
    of [sep] found by the left-to-right scan. *)
Lemma last_split c r s :
  exists t, last (split (String c r) s) = Some t /\
    contains (String c r) t = false /\
    (contains (String c r) s = false /\ t = s \/
     exists pre, s = pre +:+ String c r +:+ t).
Proof.
  remember (String.length s) as n eqn:Hn. revert s Hn.
  induction n as [n IH] using lt_wf_ind. intros s ->.
  rewrite split_step. unfold contains at 2.
  destruct (partition (String c r) s) as [[a b]|] eqn:E.
  - pose proof (partition_Some _ _ _ _ E) as Hs.
    assert (Hlen : String.length b < String.length s).
    { rewrite Hs, !str_length_app. simpl. lia. }
    destruct (IH _ Hlen b eq_refl) as (t & Hlast & Hnone & Hshape).
    exists t. split; [|split; [exact Hnone|right]].
    + rewrite last_cons, Hlast. reflexivity.
    + destruct Hshape as [[_ ->]|[pre ->]].
      * exists a. exact Hs.
      * exists (a +:+ String c r +:+ pre). rewrite Hs, !str_app_assoc. reflexivity.
  - exists s. split; [reflexivity|]. unfold contains. rewrite E. split; [reflexivity|].
    left. split; reflexivity.
Qed.


Lemma contains_char_app c pre post :
  contains (String c EmptyString) (pre +:+ String c post) = true.
Proof. exact (contains_app (String c EmptyString) pre post). Qed.

Lemma sep_free_suffix_unique c pre t pre' t' :
  pre +:+ String c t = pre' +:+ String c t' ->
  contains (String c EmptyString) t = false ->
  contains (String c EmptyString) t' = false ->
  t = t'.
Proof.
  revert pre'. induction pre as [|x pre IH]; intros [|y pre'] Heq Ht Ht'.
  - rewrite !str_app_nil_l in Heq. congruence.
  - rewrite str_app_nil_l, str_app_cons in Heq. injection Heq as Hc Hs. subst.
    rewrite contains_char_app in Ht. discriminate.
  - rewrite str_app_nil_l, str_app_cons in Heq. injection Heq as Hc Hs. subst.
    rewrite contains_char_app in Ht'. discriminate.
  - rewrite !str_app_cons in Heq. injection Heq as _ Heq. eauto.
Qed.

(** With a one-character separator, the last piece is the separator-free
    text after the last separator. *)
Lemma last_split_char c pre t :
  contains (String c EmptyString) t = false ->
  last (split (String c EmptyString) (pre +:+ String c EmptyString +:+ t)) = Some t.
Proof.
  intros Ht.
  destruct (last_split c EmptyString (pre +:+ String c EmptyString +:+ t))
    as (t' & -> & Ht' & [[Hno _]|[pre' Heq]]).
  - rewrite contains_app in Hno. discriminate.
  - f_equal. symmetry. eapply (sep_free_suffix_unique c pre t pre' t'); eauto.
Qed.

Lemma take_drop n s : take n s +:+ drop n s = s.
Proof.
  revert s. induction n as [|n IH]; intros [|c s]; try reflexivity.
  cbn [take drop]. rewrite str_app_cons, IH. reflexivity.
Qed.

Lemma take_all s : take (String.length s) s = s.
Proof. induction s as [|c s IH]; [reflexivity|]. cbn [String.length take]. by rewrite IH. Qed.

Lemma prefix_take n s : String.prefix (take n s) s = true.
Proof. apply prefix_spec. exists (drop n s). by rewrite take_drop. Qed.

Lemma str_app_length_nil x y s :
  String.length (x +:+ s +:+ y) <= String.length s -> x = EmptyString /\ y = EmptyString.
Proof.
  rewrite !str_length_app. intros H.
  destruct x; [|simpl in H; lia]. destruct y; [auto|simpl in H; lia].
Qed.

(** Of two texts that start the same text, the shorter starts the
    longer. *)
Lemma prefix_of_prefix p u t v :
  p +:+ t = u +:+ v -> String.length p <= String.length u -> exists y, u = p +:+ y.
Proof.
  revert u. induction p as [|c p IH]; intros u H Hlen; [by exists u|].
  destruct u as [|d u]; [simpl in Hlen; lia|].
  rewrite !str_app_cons in H. injection H as -> H.
  destruct (IH u H) as [y ->]; [simpl in Hlen; lia|]. by exists y.
Qed.

(** [partition] cuts at the first occurrence of the separator, and only
    there. *)
Lemma partition_first sep s a b :
  partition sep s = Some (a, b) -> first_occurrence sep a.
Proof.
  revert a b. induction s as [|c s IH]; intros a b; cbn [partition].
  - destruct (String.prefix sep EmptyString) eqn:Hp; [|discriminate].
    intros [= <- _] x y H. rewrite str_app_nil_l in H.
    apply (str_app_length_nil x y sep). rewrite <- H. lia.
  - destruct (String.prefix sep (String c s)) eqn:Hp.
    + intros [= <- _] x y H. rewrite str_app_nil_l in H.
      apply (str_app_length_nil x y sep). rewrite <- H. lia.
    + destruct (partition sep s) as [[a' b']|] eqn:E; [|discriminate].
      intros [= <- <-] x y H. destruct x as [|d x].
      * exfalso. rewrite str_app_nil_l in H.
        assert (Hpre : String.prefix sep (String c s) = true); [|congruence].
        apply prefix_spec. exists (y +:+ b'). apply partition_Some in E.
        rewrite E, <- (str_app_assoc sep y b'), <- H, str_app_assoc. reflexivity.
      * rewrite !str_app_cons in H. injection H as _ H. by eapply IH.
Qed.

Lemma partition_of_first sep a b :
  first_occurrence sep a -> partition sep (a +:+ sep +:+ b) = Some (a, b).
Proof.
  induction a as [|c a IH]; intros Hfirst.
  - rewrite str_app_nil_l.
    assert (Hp : String.prefix sep (sep +:+ b) = true) by (apply prefix_spec; eauto).
    destruct (sep +:+ b) eqn:E; cbn [partition]; rewrite Hp, <- ?E, drop_app_length;
      reflexivity.
  - rewrite str_app_cons. cbn [partition].
    destruct (String.prefix sep (String c (a +:+ sep +:+ b))) eqn:Hp.
    + exfalso. apply prefix_spec in Hp as [t Ht].
      destruct (prefix_of_prefix sep (String c a +:+ sep) t b) as [y Hy].
      * by rewrite <- Ht, str_app_assoc.
      * rewrite str_length_app. lia.
      * pose proof (Hfirst EmptyString y) as Hy'. rewrite str_app_nil_l in Hy'.
        specialize (Hy' Hy). subst y. rewrite str_app_nil_r in Hy.
        apply (f_equal String.length) in Hy. rewrite str_length_app in Hy.
        simpl in Hy. lia.
    + rewrite IH; [reflexivity|].
      intros x y H. apply (Hfirst (String c x) y). by rewrite !str_app_cons, H.
Qed.

(** The last piece of [s.split(m)], in words. *)
Lemma last_split_piece c r s t :
  last (split (String c r) s) = Some t <-> last_piece (String c r) s t.
Proof.
  split.
  - remember (String.length s) as n eqn:Hn. revert s t Hn.
    induction n as [n IH] using lt_wf_ind. intros s t ->.
    rewrite split_step.
    destruct (partition (String c r) s) as [[a b]|] eqn:E.
    + pose proof (partition_Some _ _ _ _ E) as Hs.
      assert (Hlen : String.length b < String.length s).
      { rewrite Hs, !str_length_app. simpl. lia. }
      destruct (last_split c r b) as (t' & Hlast & _).
      rewrite last_cons, Hlast. intros [= <-]. rewrite Hs.
      apply last_piece_next; [by eapply partition_first|].
      by apply (IH _ Hlen b).
    + intros [= <-]. apply last_piece_whole. intros a b. by apply partition_None.
  - induction 1 as [s Hno|a b t Hfirst Hb IH].
    + rewrite split_step.
      destruct (partition (String c r) s) as [[a b]|] eqn:E; [|reflexivity].
      exfalso. apply (Hno a b). by apply partition_Some.
    + rewrite split_step, partition_of_first by exact Hfirst.
      rewrite last_cons, IH. reflexivity.
Qed.

End StringLemmas.

Section QueryLemmas.
Import PyStr.
Context (lib : UrlLib).

Lemma values_of_cons k n v pairs :
  values_of k ((n, v) :: pairs)
  = if decide (n = k) then v :: values_of k pairs else values_of k pairs.
Proof.
  unfold values_of. rewrite filter_cons. simpl.
  destruct (decide (n = k)); reflexivity.
Qed.

Lemma parse_qs_fold (pairs : list (string * string)) (m : gmap string (list string)) k :
  foldl (fun parsed_result '(name, value) =>
           match parsed_result !! name with
           | Some l => <[name := l ++ [value]]> parsed_result
           | None => <[name := [value]]> parsed_result
           end) m pairs !! k
  = match m !! k with
    | Some l => Some (l ++ values_of k pairs)
    | None => match values_of k pairs with [] => None | l => Some l end
    end.
Proof.
  revert m. induction pairs as [|[n v] pairs IH]; intros m.
  - simpl. destruct (m !! k); [rewrite app_nil_r|]; reflexivity.
  - cbn [foldl]. rewrite IH, values_of_cons. destruct (decide (n = k)) as [->|Hne].
    + destruct (m !! k) as [l|] eqn:E.
      * rewrite lookup_insert_eq, <- app_assoc. reflexivity.
      * rewrite lookup_insert_eq. reflexivity.
    + destruct (m !! n); rewrite lookup_insert_ne by assumption; reflexivity.
Qed.

(** [params.get('v', [None])[0]] is the first value given to [v]. *)
Lemma parse_qs_first q k :
  match Url.parse_qs lib q !! k with
  | Some (v :: _) => Some v
  | Some [] => None
  | None => None
  end = head (values_of k (Url.parse_qsl lib q)).
Proof.
  unfold Url.parse_qs. rewrite parse_qs_fold, lookup_empty.
  destruct (values_of k (Url.parse_qsl lib q)); reflexivity.
Qed.

Lemma parse_qsl_fields q :
  Url.parse_qsl lib q = omap (Url.parse_field lib) (split "&" q).
Proof.
  unfold Url.parse_qsl. case_bool_decide as Hq; [subst q|]; reflexivity.
Qed.

Lemma parse_field_v field id :
  Url.parse_field lib field = Some ("v", id)
  <-> exists raw, v_field lib field raw /\ raw <> EmptyString
                 /\ id = Url.unquote lib (replace_char "+" " " raw).
Proof.
  unfold Url.parse_field, v_field. split.
  - case_bool_decide as Hf; [discriminate|].
    destruct (partition "=" field) as [[n raw]|]; [|discriminate].
    case_bool_decide as Hraw; [discriminate|].
    intros [= Hn Hid]. exists raw. split; [exists n; auto|auto].
  - intros (raw & (n & Hp & Hn) & Hraw & ->).
    case_bool_decide as Hf; [subst field; discriminate|].
    rewrite Hp. rewrite bool_decide_eq_false_2 by assumption. rewrite Hn. reflexivity.
Qed.

Lemma head_values_omap {A} (f : A -> option (string * string)) k (l : list A) :
  head (values_of k (omap f l)) <> None
  <-> exists x v, x ∈ l /\ f x = Some (k, v).
Proof.
  induction l as [|x l IH]; simpl.
  - split; [intros H; exfalso; apply H; reflexivity|].
    intros (x & v & Hx & _). by apply elem_of_nil in Hx.
  - destruct (f x) as [[n v]|] eqn:E.
    + rewrite values_of_cons. destruct (decide (n = k)) as [->|Hne].
      * split; [|discriminate]. intros _. exists x, v. split; [left|assumption].
      * rewrite IH. split.
        -- intros (y & w & Hy & Hfy). exists y, w. split; [by right|assumption].
        -- intros (y & w & Hy & Hfy). apply elem_of_cons in Hy as [->|Hy].
           ++ congruence.
           ++ eauto.
    + rewrite IH. split.
      * intros (y & w & Hy & Hfy). exists y, w. split; [by right|assumption].
      * intros (y & w & Hy & Hfy). apply elem_of_cons in Hy as [->|Hy].
        -- congruence.
        -- eauto.
Qed.

Lemma head_values_omap_Some {A} (f : A -> option (string * string)) k (l : list A) v :
  head (values_of k (omap f l)) = Some v ->
  exists x, x ∈ l /\ f x = Some (k, v).
Proof.
  induction l as [|x l IH]; simpl; [discriminate|].
  destruct (f x) as [[n v']|] eqn:E.
  - rewrite values_of_cons. destruct (decide (n = k)) as [->|Hne].
    + intros [= ->]. exists x. split; [left|assumption].
    + intros H. destruct (IH H) as (y & Hy & Hfy). exists y. split; [by right|assumption].
  - intros H. destruct (IH H) as (y & Hy & Hfy). exists y. split; [by right|assumption].
Qed.

(** On a [/watch] path an identifier is found exactly when the query has a
    [v] parameter with a value. *)
Lemma watch_identifier q :
  head (values_of "v" (Url.parse_qsl lib q)) <> None <-> has_nonblank_v_param lib q.
Proof.
  rewrite parse_qsl_fields, head_values_omap. unfold has_nonblank_v_param. split.
  - intros (field & id & Hin & Hf). apply parse_field_v in Hf as (raw & Hv & Hraw & _).
    eauto.
  - intros (field & raw & Hin & Hv & Hraw). exists field. eexists. split; [exact Hin|].
    apply parse_field_v. eauto.
Qed.

Lemma values_of_app k l1 l2 : values_of k (l1 ++ l2) = values_of k l1 ++ values_of k l2.
Proof. unfold values_of. by rewrite filter_app, fmap_app. Qed.

Lemma values_of_none {A} (f : A -> option (string * string)) k (l : list A) :
  (forall x v, x ∈ l -> f x <> Some (k, v)) -> values_of k (omap f l) = [].
Proof.
  induction l as [|x l IH]; intros H; [reflexivity|]. simpl.
  destruct (f x) as [[n v]|] eqn:E.
  - rewrite values_of_cons. destruct (decide (n = k)) as [->|_].
    + exfalso. eapply (H x v); [left|exact E].
    + apply IH. intros y w Hy. apply H. by right.
  - apply IH. intros y w Hy. apply H. by right.
Qed.

(** The first value given to [k] comes from the first field that gives
    it one. *)
Lemma head_values_first {A} (f : A -> option (string * string)) k (l : list A) v :
  head (values_of k (omap f l)) = Some v
  <-> exists pre x post,
        l = pre ++ x :: post
        /\ (forall y w, y ∈ pre -> f y <> Some (k, w))
        /\ f x = Some (k, v).
Proof.
  split.
  - induction l as [|x l IH]; simpl; [discriminate|].
    destruct (f x) as [[n v']|] eqn:E.
    + rewrite values_of_cons. destruct (decide (n = k)) as [->|Hne].
      * intros [= ->]. exists [], x, l. split; [reflexivity|]. split; [|exact E].
        intros y w Hy. by apply elem_of_nil in Hy.
      * intros H. destruct (IH H) as (pre & y & post & -> & Hpre & Hy).
        exists (x :: pre), y, post. split; [reflexivity|]. split; [|exact Hy].
        intros z w Hz. apply elem_of_cons in Hz as [->|Hz]; [congruence|by apply Hpre].
    + intros H. destruct (IH H) as (pre & y & post & -> & Hpre & Hy).
      exists (x :: pre), y, post. split; [reflexivity|]. split; [|exact Hy].
      intros z w Hz. apply elem_of_cons in Hz as [->|Hz]; [congruence|by apply Hpre].
  - intros (pre & x & post & -> & Hpre & Hx).
    rewrite omap_app, values_of_app, values_of_none by exact Hpre.
    cbn -[values_of]. rewrite Hx, values_of_cons, decide_True by reflexivity. reflexivity.
Qed.

(** On a [/watch] path the identifier is the decoded value of the first
    [v] field that has a value. *)
Lemma watch_first_v q id :
  head (values_of "v" (Url.parse_qsl lib q)) = Some id <-> first_v_value lib q id.
Proof.
  rewrite parse_qsl_fields, head_values_first. unfold first_v_value. split.
  - intros (pre & field & post & Hsplit & Hpre & Hf).
    apply parse_field_v in Hf as (raw & Hv & Hraw & Hid).
    exists pre, field, post, raw. repeat split; try assumption.
    intros g raw' Hg Hv'. destruct (decide (raw' = EmptyString)) as [|Hne]; [assumption|].
    exfalso. eapply (Hpre g _ Hg). apply parse_field_v. eauto.
  - intros (pre & field & post & raw & Hsplit & Hpre & Hv & Hraw & Hid).
    exists pre, field, post. split; [exact Hsplit|]. split.
    + intros g w Hg Hf. apply parse_field_v in Hf as (raw' & Hv' & Hne & _).
      apply Hne. by eapply Hpre.
    + apply parse_field_v. eauto.
Qed.

End QueryLemmas.


Section ExtractLemmas.
Import PyStr.
Context (lib : UrlLib).

Lemma last_split_is_Some c r s : last (split (String c r) s) <> None.
Proof. destruct (last_split c r s) as (t & -> & _). discriminate. Qed.

(** [extract_video_id] on a URL that [urlparse] accepts. *)
Lemma extract_parsed url p :
  Url.urlparse lib url = Some p ->
  extract_video_id lib url =
    if bool_decide (netloc p = "youtu.be") then Some (drop 1 (path p))
    else if bool_decide (netloc p ∈ ["youtube.com"; "www.youtube.com"])
    then
      if bool_decide (path p = "/watch")
      then head (values_of "v" (Url.parse_qsl lib (query p)))
      else if contains "/embed/" (path p) then last (split "/embed/" (path p))
      else if contains "/v/" (path p) then last (split "/v/" (path p))
      else None
    else None.
Proof.
  intros E. unfold extract_video_id. rewrite E, parse_qs_first. reflexivity.
Qed.

Lemma extract_unparsed url :
  Url.urlparse lib url = None -> extract_video_id lib url = None.
Proof. intros E. unfold extract_video_id. rewrite E. reflexivity. Qed.

Lemma canonical_host_elem p :
  canonical_host p <-> netloc p ∈ ["youtube.com"; "www.youtube.com"].
Proof. unfold canonical_host. rewrite !elem_of_cons, elem_of_nil. tauto. Qed.

Lemma canonical_not_short p : canonical_host p -> netloc p <> "youtu.be".
Proof. intros [H|H]; rewrite H; discriminate. Qed.

(** An identifier is returned exactly for the supported shapes. *)
Lemma extract_Some_iff url :
  extract_video_id lib url <> None
  <-> exists p, Url.urlparse lib url = Some p /\ supported_shape lib p.
Proof.
  split.
  - destruct (Url.urlparse lib url) as [p|] eqn:E;
      [|rewrite extract_unparsed by assumption; congruence].
    rewrite (extract_parsed _ _ E). intros H. exists p. split; [reflexivity|].
    unfold supported_shape, short_link_host.
    case_bool_decide as Hs; [by left|]. right.
    case_bool_decide as Hc; [|congruence].
    split; [by apply canonical_host_elem|].
    case_bool_decide as Hw.
    + left. split; [assumption|]. by apply watch_identifier.
    + destruct (contains "/embed/" (path p)); [by right; left|].
      destruct (contains "/v/" (path p)); [by right; right|congruence].
  - intros (p & E & Hshape). rewrite (extract_parsed _ _ E).
    destruct Hshape as [Hs|[Hc Hshape]].
    + rewrite bool_decide_eq_true_2 by exact Hs. discriminate.
    + rewrite bool_decide_eq_false_2 by (by apply canonical_not_short).
      rewrite bool_decide_eq_true_2 by (by apply canonical_host_elem).
      destruct Hshape as [[Hw Hv]|Hm].
      * rewrite bool_decide_eq_true_2 by exact Hw. by apply watch_identifier.
      * case_bool_decide as Hw.
        { rewrite Hw in Hm. destruct Hm as [Hm|Hm]; vm_compute in Hm; discriminate. }
        destruct (contains "/embed/" (path p)) eqn:He; [apply last_split_is_Some|].
        destruct Hm as [Hm|Hm]; [discriminate|]. rewrite Hm. apply last_split_is_Some.
Qed.

(** The identifier returned is the one that the shape of the URL
    carries. *)
Lemma extract_expected url id :
  extract_video_id lib url = Some id
  <-> exists p, Url.urlparse lib url = Some p /\ expected_identifier lib p id.
Proof.
  split.
  - destruct (Url.urlparse lib url) as [p|] eqn:E;
      [|rewrite extract_unparsed by assumption; discriminate].
    rewrite (extract_parsed _ _ E). intros H. exists p. split; [reflexivity|].
    unfold expected_identifier, short_link_host.
    case_bool_decide as Hs; [left; split; [assumption|congruence]|]. right.
    case_bool_decide as Hc; [|discriminate].
    split; [by apply canonical_host_elem|].
    case_bool_decide as Hw.
    + left. split; [assumption|]. by apply watch_first_v.
    + destruct (contains "/embed/" (path p)) eqn:He.
      * right; left. split; [reflexivity|]. by apply last_split_piece.
      * destruct (contains "/v/" (path p)) eqn:Hv; [|discriminate].
        right; right. split; [reflexivity|]. split; [reflexivity|].
        by apply last_split_piece.
  - intros (p & E & Hid). rewrite (extract_parsed _ _ E).
    destruct Hid as [[Hs ->]|[Hc Hid]].
    + rewrite bool_decide_eq_true_2 by exact Hs. reflexivity.
    + rewrite bool_decide_eq_false_2 by (by apply canonical_not_short).
      rewrite bool_decide_eq_true_2 by (by apply canonical_host_elem).
      destruct Hid as [[Hw Hv]|[[He Hl]|(He & Hv & Hl)]].
      * rewrite bool_decide_eq_true_2 by exact Hw. by apply watch_first_v.
      * rewrite bool_decide_eq_false_2
          by (intros Hw; rewrite Hw in He; vm_compute in He; discriminate).
        rewrite He. by apply last_split_piece.
      * rewrite bool_decide_eq_false_2
          by (intros Hw; rewrite Hw in Hv; vm_compute in Hv; discriminate).
        rewrite He, Hv. by apply last_split_piece.
Qed.

(** A shape is supported exactly when it carries an identifier. *)
Lemma supported_expected p :
  supported_shape lib p <-> exists id, expected_identifier lib p id.
Proof.
  unfold supported_shape, expected_identifier. split.
  - intros [Hs|[Hc Hshape]]; [eauto|].
    destruct Hshape as [[Hw Hv]|Hm].
    + apply watch_identifier in Hv.
      destruct (head (values_of "v" (Url.parse_qsl lib (query p)))) as [id|] eqn:E;
        [|congruence].
      exists id. right. split; [assumption|]. left. split; [assumption|].
      by apply watch_first_v.
    + destruct (contains "/embed/" (path p)) eqn:He.
      * destruct (last_split "/" "embed/" (path p)) as (t & Ht & _).
        exists t. right. split; [assumption|]. right; left. split; [reflexivity|].
        by apply last_split_piece.
      * destruct Hm as [Hm|Hm]; [discriminate|].
        destruct (last_split "/" "v/" (path p)) as (t & Ht & _).
        exists t. right. split; [assumption|]. right; right.
        split; [reflexivity|]. split; [assumption|]. by apply last_split_piece.
  - intros (id & [[Hs _]|[Hc Hid]]); [by left|]. right. split; [assumption|].
    destruct Hid as [[Hw Hv]|[[He _]|(_ & Hv & _)]].
    + left. split; [assumption|]. apply watch_identifier.
      apply watch_first_v in Hv. congruence.
    + by right; left.
    + by right; right.
Qed.

End ExtractLemmas.

(** C3, as amended.  [extract_video_id] returns an identifier exactly for
    the URLs that [urlparse] accepts and that have a supported shape: the
    network location, exactly as written in the URL, is [youtu.be]; or it
    is [youtube.com] or [www.youtube.com], and the path is [/watch] with a
    [v] query parameter whose value is not empty, or the path contains
    [/embed/] or [/v/].  The identifier returned is the expected one, and
    no other: the path without its first character, the slash, for
    [youtu.be]; the decoded value of the first [v] field that has a value
    for [/watch]; the last piece of the path cut at [/embed/], or at [/v/]
    when there is no [/embed/], otherwise.  Every other URL yields no
    identifier: another host, a [/watch] URL whose [v] parameter is empty,
    and a URL whose network location spells the host in upper case or adds
    a port or user information.  The short-link URL and the [/watch] URL of
    the specification give [abc123]. *)
Theorem C3_supported_shapes (lib : UrlLib) (url : string) :
  (forall id,
     extract_video_id lib url = Some id
     <-> exists p, Url.urlparse lib url = Some p /\ expected_identifier lib p id)
  /\ (extract_video_id lib url <> None
      <-> exists p, Url.urlparse lib url = Some p /\ supported_shape lib p)
  /\ (forall p, supported_shape lib p <-> exists id, expected_identifier lib p id)
  /\ extract_video_id lib "https://youtu.be/abc123" = Some "abc123"
  /\ extract_video_id lib "https://www.youtube.com/watch?v=abc123&t=5" = Some "abc123"
  /\ extract_video_id lib "https://www.youtube.com/watch?v=" = None
  /\ extract_video_id lib "https://example.com/abc123" = None
  /\ extract_video_id lib "https://YOUTU.BE/abc123" = None
  /\ extract_video_id lib "https://youtu.be:443/abc123" = None
  /\ extract_video_id lib "https://user@youtu.be/abc123" = None.
Proof.
  split; [intros id; apply extract_expected|].
  split; [apply extract_Some_iff|].
  split; [apply supported_expected|].
  repeat split; vm_compute; reflexivity.
Qed.

Lemma C3_witness :
  extract_video_id ascii_lib "https://www.youtube.com/watch?t=5&v=&v=abc123&v=xyz"
  = Some "abc123"
  /\ extract_video_id ascii_lib "https://www.youtube.com/embed/abc123" = Some "abc123".
Proof.
  split.
  - apply (proj1 (C3_supported_shapes ascii_lib
                    "https://www.youtube.com/watch?t=5&v=&v=abc123&v=xyz") "abc123").
    exists {| scheme := "https"; netloc := "www.youtube.com"; path := "/watch";
              params := EmptyString; query := "t=5&v=&v=abc123&v=xyz";
              fragment := EmptyString |}.
    split; [vm_compute; reflexivity|]. right. split; [right; reflexivity|].
    left. split; [reflexivity|].
    exists ["t=5"; "v="], "v=abc123", ["v=xyz"], "abc123".
    split; [vm_compute; reflexivity|]. split; [|split; [|split]].
    + intros g raw' Hg [name [Hp Hn]]. apply elem_of_cons in Hg as [->|Hg].
      * vm_compute in Hp. injection Hp as <- <-. vm_compute in Hn. discriminate.
      * apply list_elem_of_singleton in Hg as ->. vm_compute in Hp. congruence.
    + exists "v". split; vm_compute; reflexivity.
    + discriminate.
    + vm_compute. reflexivity.
  - apply (proj1 (C3_supported_shapes ascii_lib "https://www.youtube.com/embed/abc123")
             "abc123").
    exists {| scheme := "https"; netloc := "www.youtube.com"; path := "/embed/abc123";
              params := EmptyString; query := EmptyString; fragment := EmptyString |}.
    split; [vm_compute; reflexivity|]. right. split; [right; reflexivity|].
    right; left. split; [vm_compute; reflexivity|].
    apply (last_piece_next "/embed/" EmptyString "abc123" "abc123").
    + intros x y H. apply (str_app_length_nil x y "/embed/"). rewrite <- H. simpl. lia.
    + apply last_piece_whole. intros a b' H.
      assert (Hc : PyStr.contains "/embed/" "abc123" = true)
        by (rewrite H; apply contains_app).
      vm_compute in Hc. discriminate.
Defined.

Lemma C3_counterexample :
  (let p := {| scheme := "https"; netloc := "www.youtube.com"; path := "/watch";
               params := EmptyString; query := "v="; fragment := EmptyString |} in
   Url.urlparse ascii_lib "https://www.youtube.com/watch?v=" = Some p
   /\ supported_shape_as_stated ascii_lib p
   /\ extract_video_id ascii_lib "https://www.youtube.com/watch?v=" = None)
  /\ (let p := {| scheme := "https"; netloc := "YOUTU.BE"; path := "/abc123";
                  params := EmptyString; query := EmptyString;
                  fragment := EmptyString |} in
      Url.urlparse ascii_lib "https://YOUTU.BE/abc123" = Some p
      /\ hostname (netloc p) = "youtu.be"
      /\ supported_shape_as_stated ascii_lib p
      /\ extract_video_id ascii_lib "https://YOUTU.BE/abc123" = None)
  /\ (let p := {| scheme := "https"; netloc := "youtu.be"; path := "/a/b";
                  params := EmptyString; query := EmptyString;
                  fragment := EmptyString |} in
      Url.urlparse ascii_lib "https://youtu.be/a/b" = Some p
      /\ supported_shape_as_stated ascii_lib p
      /\ first_segment (path p) = Some "a"
      /\ extract_video_id ascii_lib "https://youtu.be/a/b" = Some "a/b").
Proof.
  cbn zeta. split; [|split].
  - split; [vm_compute; reflexivity|]. split; [|vm_compute; reflexivity].
    right. split; [right; reflexivity|]. left. split; [reflexivity|].
    exists "v=", EmptyString. split.
    + cbn [query]. vm_compute. apply list_elem_of_singleton. reflexivity.
    + exists "v". split; vm_compute; reflexivity.
  - split; [vm_compute; reflexivity|]. split; [vm_compute; reflexivity|].
    split; [left; vm_compute; reflexivity|vm_compute; reflexivity].
  - split; [vm_compute; reflexivity|]. split; [left; vm_compute; reflexivity|].
    split; vm_compute; reflexivity.
Qed.

Section IdentifierText.
Import PyStr.
Context (lib : UrlLib).

Lemma drop1_marker pre marker id :
  exists x, drop 1 (pre +:+ String "/" marker +:+ String "/" id)
            = x +:+ String "/" id.
Proof.
  destruct pre as [|c pre].
  - exists marker. rewrite str_app_nil_l, str_app_cons. reflexivity.
  - exists (pre +:+ String "/" marker). rewrite str_app_cons, str_app_assoc. reflexivity.
Qed.

(** The text that follows a marker is the trailing segment when it has no
    slash of its own. *)
Lemma trailing_after_marker pre marker id :
  contains "/" id = false ->
  trailing_segment (pre +:+ String "/" marker +:+ String "/" id) = Some id.
Proof.
  intros Hid. unfold trailing_segment, path_segments.
  destruct (drop1_marker pre marker id) as [x ->].
  exact (last_split_char "/" x id Hid).
Qed.

Lemma marker_identifier (marker : string) s :
  contains (String "/" marker +:+ "/") s = true ->
  exists id pre,
    last (split (String "/" marker +:+ "/") s) = Some id
    /\ s = pre +:+ (String "/" marker +:+ "/") +:+ id
    /\ contains (String "/" marker +:+ "/") id = false
    /\ (contains "/" id = false -> Some id = trailing_segment s).
Proof.
  intros Hs. rewrite str_app_cons in *.
  destruct (last_split "/" (marker +:+ "/") s) as (id & Hlast & Hid & [[Hno _]|[pre Hpre]]);
    [congruence|].
  exists id, pre. split; [exact Hlast|]. split; [exact Hpre|]. split; [exact Hid|].
  intros Hslash. rewrite Hpre at 1.
  replace (pre +:+ String "/" (marker +:+ "/") +:+ id)
    with (pre +:+ String "/" marker +:+ String "/" id)
    by (rewrite !str_app_cons, !str_app_assoc; reflexivity).
  symmetry. by apply trailing_after_marker.
Qed.

End IdentifierText.

(** C4, as amended.  For a URL whose network location is exactly
    [youtu.be], the identifier is the path without its first character, the
    slash, whatever the number of segments: it is the first path segment
    when that text has no slash, and all the segments otherwise (a/b for
    youtu.be/a/b).  For a URL whose network location is exactly
    [youtube.com] or [www.youtube.com] and whose path contains [/embed/],
    or [/v/] and no [/embed/], the identifier is the last piece of the path
    cut at that marker the way [split] cuts: the path is scanned from the
    left, each search starts where the occurrence found before ends, and
    the identifier is what follows the last occurrence found.  There is
    one such text; the marker stands before it and does not occur in it,
    and it is the trailing path segment when it has no slash.  Occurrences
    that overlap are not found: [/embed/embed/x] gives [embed/x], not
    [x]. *)
Theorem C4_identifier_text (lib : UrlLib) (url : string) (p : ParseResult) :
  Url.urlparse lib url = Some p ->
  (short_link_host p ->
     extract_video_id lib url = Some (PyStr.drop 1 (path p))
     /\ (PyStr.contains "/" (PyStr.drop 1 (path p)) = false ->
         extract_video_id lib url = first_segment (path p)))
  /\ (canonical_host p ->
      forall marker,
        marker = "/embed/" /\ PyStr.contains "/embed/" (path p) = true
        \/ marker = "/v/" /\ PyStr.contains "/embed/" (path p) = false
                         /\ PyStr.contains "/v/" (path p) = true ->
        exists id pre,
          extract_video_id lib url = Some id
          /\ last_piece marker (path p) id
          /\ (forall id', last_piece marker (path p) id' -> id' = id)
          /\ path p = pre +:+ marker +:+ id
          /\ PyStr.contains marker id = false
          /\ (PyStr.contains "/" id = false -> Some id = trailing_segment (path p)))
  /\ extract_video_id lib "https://www.youtube.com/embed/embed/x" = Some "embed/x"
  /\ extract_video_id lib "https://www.youtube.com/v/abc/embed/def" = Some "def".
Proof.
  intros E. rewrite (extract_parsed _ _ _ E). split; [|split].
  - intros Hs. rewrite bool_decide_eq_true_2 by exact Hs. split; [reflexivity|].
    intros Hone. unfold first_segment, path_segments.
    rewrite split_no_sep by exact Hone. reflexivity.
  - intros Hc marker Hm.
    rewrite bool_decide_eq_false_2 by (by apply canonical_not_short).
    rewrite bool_decide_eq_true_2 by (by apply canonical_host_elem).
    assert (Hw : path p <> "/watch").
    { intros Hw. rewrite Hw in Hm.
      destruct Hm as [[_ Hm]|(_ & _ & Hm)]; vm_compute in Hm; discriminate. }
    rewrite bool_decide_eq_false_2 by exact Hw.
    destruct Hm as [[-> He]|(-> & He & Hv)]; rewrite He; [|rewrite Hv].
    + destruct (marker_identifier "embed" (path p) He) as (id & pre & H1 & H2 & H3 & H4).
      exists id, pre. split; [exact H1|]. split; [by apply last_split_piece|].
      split; [|auto]. intros id' H'. apply last_split_piece in H'.
      change ("/embed/") with (String "/" "embed" +:+ "/") in H'. congruence.
    + destruct (marker_identifier "v" (path p) Hv) as (id & pre & H1 & H2 & H3 & H4).
      exists id, pre. split; [exact H1|]. split; [by apply last_split_piece|].
      split; [|auto]. intros id' H'. apply last_split_piece in H'.
      change ("/v/") with (String "/" "v" +:+ "/") in H'. congruence.
  - split; vm_compute; reflexivity.
Qed.

Lemma C4_witness :
  extract_video_id ascii_lib "https://youtu.be/abc123" = first_segment "/abc123"
  /\ exists id pre,
       extract_video_id ascii_lib "https://www.youtube.com/embed/embed/x" = Some id
       /\ last_piece "/embed/" "/embed/embed/x" id
       /\ (forall id', last_piece "/embed/" "/embed/embed/x" id' -> id' = id)
       /\ "/embed/embed/x" = pre +:+ "/embed/" +:+ id
       /\ PyStr.contains "/embed/" id = false
       /\ (PyStr.contains "/" id = false -> Some id = trailing_segment "/embed/embed/x").
Proof.
  split.
  - refine (proj2 (proj1 (C4_identifier_text ascii_lib "https://youtu.be/abc123"
        {| scheme := "https"; netloc := "youtu.be"; path := "/abc123";
           params := EmptyString; query := EmptyString; fragment := EmptyString |} _) _) _);
      vm_compute; reflexivity.
  - refine (proj1 (proj2 (C4_identifier_text ascii_lib "https://www.youtube.com/embed/embed/x"
        {| scheme := "https"; netloc := "www.youtube.com"; path := "/embed/embed/x";
           params := EmptyString; query := EmptyString; fragment := EmptyString |} _)) _
        "/embed/" _).
    + vm_compute; reflexivity.
    + right; reflexivity.
    + left. split; vm_compute; reflexivity.
Defined.

Lemma C4_counterexample :
  (netloc <$> Url.urlparse ascii_lib "https://youtu.be/a/b") = Some "youtu.be"
  /\ (path <$> Url.urlparse ascii_lib "https://youtu.be/a/b") = Some "/a/b"
  /\ first_segment "/a/b" = Some "a"
  /\ extract_video_id ascii_lib "https://youtu.be/a/b" = Some "a/b"
  /\ extract_video_id ascii_lib "https://youtu.be/a/b" <> first_segment "/a/b"
  /\ (path <$> Url.urlparse ascii_lib "https://www.youtube.com/embed/abc/def")
     = Some "/embed/abc/def"
  /\ trailing_segment "/embed/abc/def" = Some "def"
  /\ extract_video_id ascii_lib "https://www.youtube.com/embed/abc/def" = Some "abc/def".
Proof.
  repeat split; try (vm_compute; reflexivity). vm_compute. discriminate.
Qed.

Section Runs.
Context (lib : UrlLib) (svc : Services).

Lemma get_transcript_run vid w :
  get_transcript svc vid None w
  = (fetched_transcript svc vid, after w [TranscriptRequest vid ["es"; "en"]]).
Proof.
  unfold get_transcript, fetched_transcript, bind, emit, ret. simpl.
  destruct (api_get_transcript svc vid ["es"; "en"]); reflexivity.
Qed.

Lemma get_gemini_response_run self prompt w :
  get_gemini_response svc self prompt w
  = (api_generate_content svc (model_name self) prompt,
     after w [GenerationRequest (model_name self) prompt]).
Proof. reflexivity. Qed.

(** [process_video], one line for each way out. *)
Lemma process_video_run self url save w :
  process_video lib svc self url save w =
  match extract_video_id lib url with
  | Some vid =>
      if truthy (Some vid) then
        let w1 := after w [TranscriptRequest vid ["es"; "en"]] in
        match fetched_transcript svc vid with
        | Some t =>
            if truthy (Some t) then
              let prompt := create_summary_prompt t in
              let w2 := after w1 [GenerationRequest (model_name self) prompt] in
              match api_generate_content svc (model_name self) prompt with
              | Some st =>
                  if truthy (Some st) then
                    (success_record vid t st,
                     if save then (_save_summary (success_record vid t st) w2).2 else w2)
                  else (no_summary_record vid t, w2)
              | None => (no_summary_record vid t, w2)
              end
            else (no_transcript_record vid, w1)
        | None => (no_transcript_record vid, w1)
        end
      else (invalid_url_record, w)
  | None => (invalid_url_record, w)
  end.
Proof.
  unfold process_video.
  destruct (extract_video_id lib url) as [vid|]; [|reflexivity].
  destruct (truthy (Some vid)); [|reflexivity]. cbn [negb].
  unfold bind at 1. rewrite get_transcript_run.
  destruct (fetched_transcript svc vid) as [t|]; [|reflexivity].
  destruct (truthy (Some t)); [|reflexivity]. cbn [negb].
  unfold bind at 1. rewrite get_gemini_response_run.
  destruct (api_generate_content svc (model_name self) (create_summary_prompt t)) as [st|];
    [|reflexivity].
  destruct (truthy (Some st)); [|reflexivity]. cbn [negb].
  unfold bind at 1, ret.
  destruct save.
  - destruct (_save_summary _ _) as [[] w']. reflexivity.
  - reflexivity.
Qed.

End Runs.

Section FileSystemLemmas.

Lemma output_dir_eq : output_dir = ["summaries"].
Proof. vm_compute. reflexivity. Qed.

Lemma mkdir_exist_ok_run p w :
  Os.mkdir_exist_ok p w =
  match Os.mkdir (fs w) p with
  | Some f' => (true, {| events := events w ++ [MkdirRequest p]; fs := f' |})
  | None => (false, after w [MkdirRequest p])
  end.
Proof.
  unfold Os.mkdir_exist_ok, bind, emit, get_fs, put_fs, ret. simpl.
  destruct (Os.mkdir (fs w) p); reflexivity.
Qed.

Lemma write_text_run p data w :
  Os.write_text p data w =
  match Os.create (fs w) p data with
  | Some f' => (bool_decide (Os.written (fs w) p data = data),
                {| events := events w ++ [OpenWriteRequest p]; fs := f' |})
  | None => (false, after w [OpenWriteRequest p])
  end.
Proof.
  unfold Os.write_text, bind, emit, get_fs, put_fs, ret. simpl.
  destruct (Os.create (fs w) p data); reflexivity.
Qed.

(** [_save_summary] changes the file system as [saved_fs] says ... *)
Lemma save_summary_fs s w : fs (_save_summary s w).2 = saved_fs s (fs w).
Proof.
  unfold _save_summary, saved_fs, document, bind. rewrite mkdir_exist_ok_run.
  destruct (Os.mkdir (fs w) output_dir) as [f1|]; [|reflexivity].
  rewrite write_text_run. cbn [fs].
  destruct (Os.create f1 (output_file s) _); reflexivity.
Qed.

(** ... and asks for one directory and at most one file. *)
Lemma save_summary_events s w :
  events (_save_summary s w).2 = events w ++ [MkdirRequest output_dir]
  \/ events (_save_summary s w).2
     = events w ++ [MkdirRequest output_dir; OpenWriteRequest (output_file s)].
Proof.
  unfold _save_summary, bind. rewrite mkdir_exist_ok_run.
  destruct (Os.mkdir (fs w) output_dir) as [f1|]; [|left; reflexivity].
  rewrite write_text_run. cbn [fs events]. right.
  destruct (Os.create f1 (output_file s) _); cbn; rewrite <- app_assoc; reflexivity.
Qed.

(** When [mkdir] returns, [open] is asked for. *)
Lemma save_summary_events_made s w f1 :
  Os.mkdir (fs w) output_dir = Some f1 ->
  events (_save_summary s w).2
  = events w ++ [MkdirRequest output_dir; OpenWriteRequest (output_file s)].
Proof.
  intros Hmk. unfold _save_summary, bind. rewrite mkdir_exist_ok_run, Hmk.
  rewrite write_text_run. cbn [fs events].
  destruct (Os.create f1 (output_file s) _); cbn; rewrite <- app_assoc; reflexivity.
Qed.

(** [summaries] is looked up in the working directory. *)
Lemma mkdir_output_dir f :
  Os.mkdir f output_dir =
  if refuses (host f) (MkdirRequest ["summaries"]) then None
  else if bool_decide (["summaries"] ∈ dirs f) then Some f
  else if bool_decide (is_Some (files f !! ["summaries"])) then None
  else Some {| dirs := dirs f ∪ {[ ["summaries"] ]}; files := files f; host := host f |}.
Proof. rewrite output_dir_eq. reflexivity. Qed.

Lemma mkdir_files f f1 :
  Os.mkdir f output_dir = Some f1 -> files f1 = files f /\ host f1 = host f.
Proof.
  rewrite mkdir_output_dir. destruct (refuses _ _); [discriminate|].
  repeat case_bool_decide; try discriminate; intros [= <-]; split; reflexivity.
Qed.

Lemma mkdir_dirs f f1 :
  Os.mkdir f output_dir = Some f1 ->
  dirs f1 = dirs f \/ dirs f1 = dirs f ∪ {[ ["summaries"] ]}.
Proof.
  rewrite mkdir_output_dir. destruct (refuses _ _); [discriminate|].
  repeat case_bool_decide; try discriminate; intros [= <-]; [by left|by right].
Qed.

Lemma mkdir_Some_dir f f1 :
  Os.mkdir f output_dir = Some f1 -> ["summaries"] ∈ dirs f1.
Proof.
  rewrite mkdir_output_dir. destruct (refuses _ _); [discriminate|].
  repeat case_bool_decide; try discriminate; intros [= <-]; [assumption|].
  cbn [dirs]. apply elem_of_union_r, elem_of_singleton. reflexivity.
Qed.






Lemma saved_fs_made f f1 s :
  Os.mkdir f output_dir = Some f1 ->
  saved_fs s f
  = match Os.open_w f1 (output_file s) with
    | Os.Opens loc =>
        {| dirs := dirs f1;
           files := <[loc := Os.written f1 (output_file s) (document s)]> (files f);
           host := host f |}
    | _ => f1
    end.
Proof.
  intros Hmk. destruct (mkdir_files _ _ Hmk) as [Hf Hh].
  unfold saved_fs, Os.create. rewrite Hmk, Hf, Hh.
  destruct (Os.open_w f1 (output_file s)); reflexivity.
Qed.



(** A save that goes through sets the file at its place to the document
    and changes no other file. *)
Lemma persisted_files s f loc :
  persisted s f loc -> files (saved_fs s f) = <[loc := document s]> (files f).
Proof.
  intros (f1 & Hmk & Hop & Hwr). rewrite (saved_fs_made _ _ _ Hmk), Hop, Hwr.
  reflexivity.
Qed.

End FileSystemLemmas.

Section DocumentLemmas.
Import PyStr.

Lemma partition_char_cons c d s :
  partition (String c EmptyString) (String d s)
  = if bool_decide (c = d) then Some (EmptyString, s)
    else match partition (String c EmptyString) s with
         | Some (a, b) => Some (String d a, b)
         | None => None
         end.
Proof.
  cbn [partition]. rewrite prefix_cons, prefix_nil_l, andb_true_r.
  case_bool_decide; reflexivity.
Qed.

Lemma split_summaries x :
  split "/" ("summaries/" +:+ x) = "summaries" :: split "/" x.
Proof.
  rewrite split_step, !str_app_cons, str_app_nil_l.
  repeat (rewrite partition_char_cons, bool_decide_eq_false_2 by discriminate).
  rewrite partition_char_cons, bool_decide_eq_true_2 by reflexivity.
  reflexivity.
Qed.

(** The path handed to [open] is the [Path] of
    [summaries/summary_<video_id>.json]. *)
Lemma output_file_path s :
  output_file s = Os.path_of_str ("summaries/summary_" +:+ video_id s +:+ ".json").
Proof.
  unfold output_file, Os.path_div. rewrite output_dir_eq. unfold Os.path_of_str.
  change ("summaries/summary_" +:+ video_id s +:+ ".json")
    with ("summaries/" +:+ ("summary_" +:+ video_id s +:+ ".json")).
  rewrite split_summaries, filter_cons_True by (split; discriminate).
  reflexivity.
Qed.

Lemma contains_char_cons c d s :
  contains (String c EmptyString) (String d s)
  = bool_decide (c = d) || contains (String c EmptyString) s.
Proof.
  unfold contains. rewrite partition_char_cons.
  case_bool_decide; [reflexivity|].
  destruct (partition (String c EmptyString) s) as [[a b]|]; reflexivity.
Qed.

Lemma contains_char_append c s t :
  contains (String c EmptyString) (s +:+ t)
  = contains (String c EmptyString) s || contains (String c EmptyString) t.
Proof.
  induction s as [|d s IH].
  - rewrite str_app_nil_l. reflexivity.
  - rewrite str_app_cons, !contains_char_cons, IH, orb_assoc. reflexivity.
Qed.

Lemma plain_file_name vid :
  plain_name vid = true ->
  output_file {| video_id := vid; title := None; transcript := None;
                 summary := None; error := None |}
  = ["summaries"; "summary_" +:+ vid +:+ ".json"]
  /\ Os.has_nul ["summaries"; "summary_" +:+ vid +:+ ".json"] = false.
Proof.
  unfold plain_name. rewrite andb_true_iff, !negb_true_iff. intros [Hs Hn].
  split.
  - unfold output_file, Os.path_div, Os.path_of_str. rewrite output_dir_eq. cbn [video_id].
    rewrite split_no_sep.
    + rewrite filter_cons_True by (split; discriminate). reflexivity.
    + rewrite !contains_char_append, Hs. reflexivity.
  - unfold Os.has_nul. cbn [existsb].
    rewrite !contains_char_append, Hn. reflexivity.
Qed.

Lemma output_file_video_id s :
  output_file s = output_file {| video_id := video_id s; title := None; transcript := None;
                                 summary := None; error := None |}.
Proof. reflexivity. Qed.

Lemma summary_name_not_dotdot x : "summary_" +:+ x <> "..".
Proof. rewrite str_app_cons. discriminate. Qed.

(** A path of two names, the first of which is [summaries], leads to the
    place of these names when the directory [summaries] exists. *)
Lemma resolve_summaries f name :
  name <> ".." ->
  Os.resolve f ["summaries"; name]
  = if bool_decide (["summaries"] ∈ dirs f) then At ["summaries"; name] else NoSuchPath.
Proof.
  intros Hn. unfold Os.resolve. cbn [Os.resolve_from]. unfold Os.is_dir.
  rewrite (bool_decide_eq_true_2 ([] = [])) by reflexivity. cbn [orb negb].
  rewrite (bool_decide_eq_false_2 ("summaries" = "..")) by discriminate.
  rewrite (bool_decide_eq_false_2 ([] ++ ["summaries"] = [])) by discriminate.
  cbn [orb app]. rewrite (bool_decide_eq_false_2 (name = "..")) by exact Hn.
  case_bool_decide; reflexivity.
Qed.

(** The file of a plain identifier is at the place of its two names. *)
Lemma plain_location s f loc :
  plain_name (video_id s) = true ->
  Os.open_w f (output_file s) = Os.Opens loc ->
  loc = ["summaries"; "summary_" +:+ video_id s +:+ ".json"].
Proof.
  intros Hplain. destruct (plain_file_name _ Hplain) as [Hout _].
  rewrite <- output_file_video_id in Hout. rewrite Hout. unfold Os.open_w.
  destruct (Os.has_nul _); [discriminate|]. destruct (refuses _ _); [discriminate|].
  rewrite resolve_summaries by apply summary_name_not_dotdot.
  case_bool_decide; [|discriminate]. destruct (Os.is_dir _ _); [discriminate|].
  intros [= <-]. reflexivity.
Qed.

(** Nothing stands in the way of the save when the identifier is a plain
    file name, the host refuses neither request and lets the write through,
    [summaries] is not a regular file and the target is not a directory. *)
Lemma persisted_plain s f :
  plain_name (video_id s) = true ->
  refuses (host f) (MkdirRequest ["summaries"]) = false ->
  refuses (host f) (OpenWriteRequest (output_file s)) = false ->
  write_limit (host f) (output_file s) = None ->
  files f !! ["summaries"] = None ->
  output_file s ∉ dirs f ->
  persisted s f (output_file s).
Proof.
  intros Hplain Hr1 Hr2 Hwl Hfile Hdir.
  destruct (plain_file_name _ Hplain) as [Hout Hnul]. rewrite <- output_file_video_id in Hout.
  assert (Hmk : exists f1, Os.mkdir f output_dir = Some f1).
  { rewrite mkdir_output_dir, Hr1. case_bool_decide; [eauto|].
    rewrite Hfile. rewrite bool_decide_eq_false_2 by (intros [? ?]; discriminate). eauto. }
  destruct Hmk as [f1 Hmk]. exists f1. split; [exact Hmk|].
  destruct (mkdir_files _ _ Hmk) as [Hf Hh].
  pose proof (mkdir_Some_dir _ _ Hmk) as Hin. pose proof (mkdir_dirs _ _ Hmk) as Hd.
  split.
  - unfold Os.open_w. rewrite Hh, Hr2. rewrite Hout in *. rewrite Hnul.
    rewrite resolve_summaries by apply summary_name_not_dotdot.
    rewrite bool_decide_eq_true_2 by exact Hin. unfold Os.is_dir.
    rewrite bool_decide_eq_false_2 by discriminate. rewrite bool_decide_eq_false_2; [reflexivity|].
    destruct Hd as [->| ->]; [exact Hdir|].
    rewrite elem_of_union, elem_of_singleton. intros [?|?]; [auto|discriminate].
  - unfold Os.written. rewrite Hh, Hwl. reflexivity.
Qed.

(** The document, spelled out: one field per line, two spaces of
    indentation, the four fields in the order of the dictionary. *)
Lemma document_text s :
  document s =
  "{" +:+ Json.newline
  +:+ "  " +:+ Json.quote +:+ "video_id" +:+ Json.quote +:+ ": "
      +:+ Json.encode_basestring (video_id s) +:+ "," +:+ Json.newline
  +:+ "  " +:+ Json.quote +:+ "transcript" +:+ Json.quote +:+ ": "
      +:+ Json.encode_value (Json.of_optional (transcript s)) +:+ "," +:+ Json.newline
  +:+ "  " +:+ Json.quote +:+ "summary" +:+ Json.quote +:+ ": "
      +:+ Json.encode_value (Json.of_optional (summary s)) +:+ "," +:+ Json.newline
  +:+ "  " +:+ Json.quote +:+ "error" +:+ Json.quote +:+ ": "
      +:+ Json.encode_value (Json.of_optional (error s)) +:+ Json.newline
  +:+ "}".
Proof.
  unfold document, Json.dumps_indent2, summary_dict, Json.encode_item, Json.encode_basestring.
  cbn [map join fst snd Json.encode_value].
  change (Json.escape "video_id") with "video_id".
  change (Json.escape "transcript") with "transcript".
  change (Json.escape "summary") with "summary".
  change (Json.escape "error") with "error".
  unfold Json.encode_basestring. rewrite !str_app_assoc. reflexivity.
Qed.

Lemma escape_char_literal c :
  (32 <= code c)%N -> code c <> 34%N -> code c <> 92%N ->
  Json.escape_char c = String c EmptyString.
Proof.
  intros H32 H34 H92. unfold Json.escape_char.
  repeat match goal with
         | |- context [(?n =? ?k)%N] => destruct (N.eqb_spec n k); [lia|]
         end.
  destruct (N.ltb_spec (code c) 32); [lia|reflexivity].
Qed.

(** Text outside ASCII is written as it is. *)
Lemma escape_non_ascii str :
  all_chars (fun c => negb (is_ascii c)) str = true -> Json.escape str = str.
Proof.
  induction str as [|c str IH]; [reflexivity|].
  cbn [all_chars Json.escape]. rewrite andb_true_iff, negb_true_iff. intros [Hc Hs].
  unfold is_ascii in Hc. apply N.ltb_ge in Hc.
  rewrite escape_char_literal, IH by (assumption || lia). reflexivity.
Qed.

Lemma escape_app a b : Json.escape (a +:+ b) = Json.escape a +:+ Json.escape b.
Proof.
  induction a as [|c a IH]; [reflexivity|].
  rewrite str_app_cons. cbn [Json.escape]. rewrite IH, str_app_assoc. reflexivity.
Qed.

(** A character outside ASCII is written as it is, whatever surrounds
    it. *)
Lemma escape_keeps_non_ascii pre c post :
  is_ascii c = false ->
  Json.escape (pre +:+ String c post) = Json.escape pre +:+ String c (Json.escape post).
Proof.
  intros Hc. unfold is_ascii in Hc. apply N.ltb_ge in Hc.
  rewrite escape_app. cbn [Json.escape]. rewrite escape_char_literal by lia. reflexivity.
Qed.

(** So is every text without control character, quote or backslash. *)
Lemma escape_unescaped str : all_chars unescaped str = true -> Json.escape str = str.
Proof.
  induction str as [|c str IH]; [reflexivity|].
  cbn [all_chars Json.escape]. unfold unescaped at 1.
  rewrite !andb_true_iff, !negb_true_iff. intros [[[H32 H34] H92] Hs].
  apply N.leb_le in H32. apply N.eqb_neq in H34. apply N.eqb_neq in H92.
  rewrite escape_char_literal, IH by assumption. reflexivity.
Qed.

Lemma read_escaped_escape_char c tail :
  read_escaped (Json.escape_char c +:+ tail) = read_cons c (read_escaped tail).
Proof.
  destruct c as [[] [] [] [] [] [] [] []]; reflexivity.
Qed.

Lemma read_escaped_escape s rest :
  read_escaped (Json.escape s +:+ Json.quote +:+ rest) = Some (s, rest).
Proof.
  induction s as [|c s IH]; [reflexivity|].
  cbn [Json.escape]. rewrite str_app_assoc, read_escaped_escape_char, IH. reflexivity.
Qed.

Lemma expect_app lit r : expect lit (lit +:+ r) = Some r.
Proof.
  unfold expect. rewrite (proj2 (prefix_spec lit (lit +:+ r))) by eauto.
  rewrite drop_app_length. reflexivity.
Qed.

Lemma read_string_encode t r :
  read_string (Json.encode_basestring t +:+ r) = Some (t, r).
Proof.
  unfold Json.encode_basestring. rewrite !str_app_assoc. unfold Json.quote at 1.
  rewrite str_app_cons, str_app_nil_l. cbn [read_string].
  change (Ascii.eqb "034" "034") with true. cbn iota. apply read_escaped_escape.
Qed.

Lemma encode_optional o :
  Json.encode_value (Json.of_optional o)
  = match o with Some v => Json.encode_basestring v | None => "null" end.
Proof. destruct o; reflexivity. Qed.

Lemma read_optional_encode o r :
  read_optional (Json.encode_value (Json.of_optional o) +:+ r) = Some (o, r).
Proof.
  rewrite encode_optional. unfold read_optional. destruct o as [t|].
  - rewrite read_string_encode. reflexivity.
  - rewrite expect_app. reflexivity.
Qed.

Lemma read_member_encode k o r :
  read_member ("  " +:+ Json.encode_basestring k +:+ ": "
               +:+ Json.encode_value (Json.of_optional o) +:+ r)
  = Some ((k, o), r).
Proof.
  unfold read_member. rewrite expect_app, read_string_encode, expect_app.
  rewrite read_optional_encode. reflexivity.
Qed.

Lemma read_members_more n k s l :
  read_members n s = Some l -> read_members (n + k) s = Some l.
Proof.
  revert s l. induction n as [|n IH]; intros s l; [discriminate|].
  cbn [read_members Nat.add]. destruct (read_member s) as [[m r]|]; [|discriminate].
  destruct (expect _ r) as [r'|]; [|done].
  destruct (read_members n r') as [ms|] eqn:E; [|discriminate].
  rewrite (IH _ _ E). done.
Qed.

Lemma read_members_step n k o r :
  read_members (S n) ("  " +:+ Json.encode_basestring k +:+ ": "
                      +:+ Json.encode_value (Json.of_optional o)
                      +:+ "," +:+ Json.newline +:+ r)
  = match read_members n r with
    | Some ms => Some ((k, o) :: ms)
    | None => None
    end.
Proof.
  cbn [read_members]. rewrite read_member_encode.
  change ("," +:+ Json.newline +:+ r) with (String "," (String "010" EmptyString) +:+ r).
  rewrite expect_app. reflexivity.
Qed.

Lemma read_members_last n k o :
  read_members (S n) ("  " +:+ Json.encode_basestring k +:+ ": "
                      +:+ Json.encode_value (Json.of_optional o)
                      +:+ Json.newline +:+ "}")
  = Some [(k, o)].
Proof. cbn [read_members]. rewrite read_member_encode. reflexivity. Qed.

(** The document reads back as its four members, in their order. *)
Lemma read_document_document s :
  read_document (document s)
  = Some [("video_id", Some (video_id s)); ("transcript", transcript s);
          ("summary", summary s); ("error", error s)].
Proof.
  rewrite document_text. unfold read_document.
  set (rest := "  " +:+ Json.quote +:+ "video_id" +:+ _).
  change ("{" +:+ Json.newline +:+ rest) with (String "{" (String "010" EmptyString) +:+ rest).
  rewrite expect_app.
  assert (H4 : read_members 4 rest
               = Some [("video_id", Some (video_id s)); ("transcript", transcript s);
                       ("summary", summary s); ("error", error s)]).
  { subst rest.
    change (Json.encode_basestring (video_id s))
      with (Json.encode_value (Json.of_optional (Some (video_id s)))).
    repeat match goal with
    | |- context [Json.quote +:+ ?k +:+ Json.quote +:+ ?r] =>
        change (Json.quote +:+ k +:+ Json.quote +:+ r) with (Json.encode_basestring k +:+ r)
    end.
    rewrite !read_members_step, read_members_last. reflexivity. }
  assert (Hlen : exists k, String.length (String "{" (String "010" EmptyString) +:+ rest) = 4 + k).
  { subst rest. rewrite !str_length_app. cbn [String.length Json.quote]. eexists. cbn. reflexivity. }
  destruct Hlen as [k ->]. by apply read_members_more.
Qed.

End DocumentLemmas.

Lemma join_concat sep l : PyStr.join sep l = String.concat sep l.
Proof.
  induction l as [|x [|y l] IH]; [reflexivity..|].
  change (x +:+ sep +:+ PyStr.join sep (y :: l) = x +:+ sep +:+ String.concat sep (y :: l)).
  rewrite IH. reflexivity.
Qed.

Lemma truthy_false o : truthy o = false <-> o = None \/ o = Some EmptyString.
Proof.
  destruct o as [s|]; simpl.
  - rewrite negb_false_iff, bool_decide_eq_true. split; [intros ->; by right|].
    intros [?|[= ->]]; [discriminate|reflexivity].
  - split; [by left|reflexivity].
Qed.

Lemma truthy_true o : truthy o = true <-> exists s, o = Some s /\ s <> EmptyString.
Proof.
  destruct o as [s|]; simpl.
  - rewrite negb_true_iff, bool_decide_eq_false. split; [eauto|].
    intros (s' & [= <-] & H). exact H.
  - split; [discriminate|]. intros (s & H & _). discriminate.
Qed.

(** C1.  Processing short-circuits on the first failing stage.  When
    [extract_video_id] yields no identifier ([None], or the empty string,
    which Python also takes for false), no request at all is made, so
    neither the transcript fetch nor the generation call is attempted, and
    the error of the record is the invalid-URL message.  When an identifier
    is found and [get_transcript] yields nothing ([None] or the empty
    string), the transcript request is the only request made, so the
    generation call is not attempted, and the error of the record is the
    transcript message. *)
Theorem C1_short_circuit (lib : UrlLib) (svc : Services) (self : YouTubeSummarizer)
    (url : string) (save_to_file : bool) (w : World) :
  let r := (process_video lib svc self url save_to_file w).1 in
  let w' := (process_video lib svc self url save_to_file w).2 in
  (extract_video_id lib url = None \/ extract_video_id lib url = Some EmptyString ->
     events w' = events w /\ error r = Some "Invalid YouTube URL")
  /\ (forall vid,
        extract_video_id lib url = Some vid -> vid <> EmptyString ->
        (get_transcript svc vid None w).1 = None
        \/ (get_transcript svc vid None w).1 = Some EmptyString ->
        events w' = events w ++ [TranscriptRequest vid ["es"; "en"]]
        /\ error r = Some "Failed to fetch transcript").
Proof.
  cbn zeta. rewrite process_video_run. split.
  - intros H. apply truthy_false in H.
    destruct (extract_video_id lib url) as [vid|]; [|split; reflexivity].
    rewrite H. split; reflexivity.
  - intros vid -> Hvid Ht. rewrite get_transcript_run in Ht. cbn [fst] in Ht.
    apply truthy_false in Ht.
    assert (Hv : truthy (Some vid) = true) by (apply truthy_true; eauto).
    rewrite Hv. cbn zeta.
    destruct (fetched_transcript svc vid) as [t|]; [|split; reflexivity].
    rewrite Ht. split; reflexivity.
Qed.

Lemma C1_witness :
  (let r := (process_video ascii_lib demo_services gemini_pro
               "https://example.com/abc123" true empty_world).1 in
   let w' := (process_video ascii_lib demo_services gemini_pro
                "https://example.com/abc123" true empty_world).2 in
   events w' = [] /\ error r = Some "Invalid YouTube URL")
  /\ (let r := (process_video ascii_lib demo_services gemini_pro
                  "https://youtu.be/unknown" true empty_world).1 in
      let w' := (process_video ascii_lib demo_services gemini_pro
                   "https://youtu.be/unknown" true empty_world).2 in
      events w' = [TranscriptRequest "unknown" ["es"; "en"]]
      /\ error r = Some "Failed to fetch transcript").
Proof.
  split.
  - apply (proj1 (C1_short_circuit ascii_lib demo_services gemini_pro
                    "https://example.com/abc123" true empty_world)).
    left. vm_compute. reflexivity.
  - apply (proj2 (C1_short_circuit ascii_lib demo_services gemini_pro
                    "https://youtu.be/unknown" true empty_world) "unknown").
    + vm_compute. reflexivity.
    + discriminate.
    + left. vm_compute. reflexivity.
Defined.

(** C2, as amended.  Every record returned by [process_video] is in
    exactly one of two terminal states: [Success], with a transcript, a
    summary and no error, or [Failed], with an error and no summary.  A
    failed record is not all-or-nothing: it carries the transcript exactly
    when the failure is that of the generation stage. *)
Theorem C2_terminal_states (lib : UrlLib) (svc : Services) (self : YouTubeSummarizer)
    (url : string) (save_to_file : bool) (w : World) :
  let r := (process_video lib svc self url save_to_file w).1 in
  (Success r /\ ~ Failed r \/ Failed r /\ ~ Success r)
  /\ (Failed r ->
      (transcript r <> None <-> error r = Some "Failed to generate summary")).
Proof.
  cbn zeta. rewrite process_video_run.
  unfold Success, Failed.
  destruct (extract_video_id lib url) as [vid|]; [destruct (truthy (Some vid))|];
    cbn zeta;
    [destruct (fetched_transcript svc vid) as [t|]; [destruct (truthy (Some t))|];
     cbn zeta;
     [destruct (api_generate_content svc (model_name self) (create_summary_prompt t))
        as [st|]; [destruct (truthy (Some st))|]|..]|..];
    cbn [fst transcript summary error success_record no_summary_record
         no_transcript_record invalid_url_record];
    (split;
     [ first [ left; split; [repeat split; discriminate | intros [H _]; by apply H]
             | right; split; [split; [discriminate|reflexivity]
                             | intros (_ & _ & H); discriminate H] ]
     | intros [Hf _]; split; intros H;
       first [ reflexivity | discriminate | by destruct Hf | by destruct H ] ]).
Qed.

Lemma C2_witness :
  let r := (process_video ascii_lib failing_generation gemini_pro
              "https://youtu.be/abc123" false empty_world).1 in
  transcript r <> None <-> error r = Some "Failed to generate summary".
Proof.
  apply (proj2 (C2_terminal_states ascii_lib failing_generation gemini_pro
                  "https://youtu.be/abc123" false empty_world)).
  split; [vm_compute; discriminate | vm_compute; reflexivity].
Defined.

Lemma C2_counterexample :
  let r := (process_video ascii_lib failing_generation gemini_pro
              "https://youtu.be/abc123" false empty_world).1 in
  r = no_summary_record "abc123" "Hello world"
  /\ error r <> None /\ transcript r = Some "Hello world"
  /\ ~ (Success r \/ Failed_clean r).
Proof.
  cbn zeta. split; [vm_compute; reflexivity|].
  split; [vm_compute; discriminate|]. split; [vm_compute; reflexivity|].
  intros [(_ & _ & H)|(_ & H & _)]; vm_compute in H; discriminate.
Qed.

(** C5.  For every sequence of segments that the transcript service
    returns, the transcript is the texts of the segments joined with one
    space, in their order ([String.concat] of the standard library); it
    does not depend on the timing fields, since two answers with the same
    texts give the same transcript; the segments Hello and world give
    Hello world. *)
Theorem C5_transcript_join (svc : Services) (vid : string)
    (languages : option (list string)) (segments : list Segment) (w : World) :
  api_get_transcript svc vid (default ["es"; "en"] languages) = Some segments ->
  (get_transcript svc vid languages w).1
  = Some (String.concat " " (map text segments))
  /\ (forall (svc' : Services) (segments' : list Segment),
        api_get_transcript svc' vid (default ["es"; "en"] languages) = Some segments' ->
        map text segments' = map text segments ->
        (get_transcript svc' vid languages w).1 = (get_transcript svc vid languages w).1)
  /\ (get_transcript demo_services "abc123" None w).1 = Some "Hello world".
Proof.
  intros H.
  assert (Hrun : forall svc0 segs,
             api_get_transcript svc0 vid (default ["es"; "en"] languages) = Some segs ->
             (get_transcript svc0 vid languages w).1 = Some (PyStr.join " " (map text segs))).
  { intros svc0 segs H0. unfold get_transcript, bind, emit, ret. cbn zeta.
    rewrite H0. reflexivity. }
  split; [|split].
  - rewrite (Hrun _ _ H), join_concat. reflexivity.
  - intros svc' segments' H' Htexts. rewrite (Hrun _ _ H'), (Hrun _ _ H), Htexts.
    reflexivity.
  - reflexivity.
Qed.

Lemma C5_witness :
  (get_transcript demo_services "abc123" None empty_world).1
  = Some (String.concat " " ["Hello"; "world"]).
Proof.
  apply (proj1 (C5_transcript_join demo_services "abc123" None hello_world empty_world
                  ltac:(vm_compute; reflexivity))).
Defined.

(** C6.  For every transcript, the empty one and those with non-ASCII or
    brace characters included, the prompt contains the transcript verbatim
    as a contiguous substring; Python's [transcript in prompt] holds. *)
Theorem C6_prompt_contains_transcript (transcript : string) :
  is_substring transcript (create_summary_prompt transcript)
  /\ PyStr.contains transcript (create_summary_prompt transcript) = true.
Proof.
  assert (H : is_substring transcript (create_summary_prompt transcript)).
  { unfold is_substring, create_summary_prompt. eauto. }
  split; [exact H|]. destruct H as (pre & post & ->). apply contains_app.
Qed.

(** C7.  When the save of a record goes through ([mkdir] returns, [open]
    succeeds and the whole text is written), exactly one file is set, all
    other files staying as they were: the one that the path
    [summaries/summary_<video_id>.json] names, which for an identifier
    without slash is the file of that name in [summaries].  One [mkdir] and
    one [open] are asked for, at [summaries] and at that path, and never
    more.  The save does go through when the identifier is a plain file
    name, the host refuses neither request and lets the write through,
    [summaries] is not a regular file and the target is not a directory.
    The text written is pretty-printed, one member per line after two
    spaces, and read back it has exactly the four members [video_id],
    [transcript], [summary] and [error], in this order and with the values
    of the record, without a [title]: a missing value is [null], a text
    stands between quotes.  Bytes are written as they are, which is UTF-8:
    a character outside ASCII stands for itself wherever it is in a text,
    as does every character but the control characters, the quote and the
    backslash.  The last part spells out the text of a record whose
    transcript has the control characters 0, 1, 8, 9, 10, 12, 13, 26 and
    31, a quote, a backslash, the character 127 and the two bytes of
    e-acute, whose summary is missing and whose error is the empty
    text. *)
Theorem C7_persisted_document (s : VideoSummary) (w : World) :
  let w' := (_save_summary s w).2 in
  let target := Os.path_of_str ("summaries/summary_" +:+ video_id s +:+ ".json") in
  let q := String "034" EmptyString in
  let nl := String "010" EmptyString in
  let bs := String "092" EmptyString in
  let text :=
    "{" +:+ nl
    +:+ "  " +:+ q +:+ "video_id" +:+ q +:+ ": "
        +:+ Json.encode_basestring (video_id s) +:+ "," +:+ nl
    +:+ "  " +:+ q +:+ "transcript" +:+ q +:+ ": "
        +:+ Json.encode_value (Json.of_optional (transcript s)) +:+ "," +:+ nl
    +:+ "  " +:+ q +:+ "summary" +:+ q +:+ ": "
        +:+ Json.encode_value (Json.of_optional (summary s)) +:+ "," +:+ nl
    +:+ "  " +:+ q +:+ "error" +:+ q +:+ ": "
        +:+ Json.encode_value (Json.of_optional (error s)) +:+ nl
    +:+ "}" in
  (forall loc,
     persisted s (fs w) loc ->
     files (fs w') = <[loc := text]> (files (fs w))
     /\ events w' = events w ++ [MkdirRequest ["summaries"]; OpenWriteRequest target]
     /\ (exists f1, Os.mkdir (fs w) ["summaries"] = Some f1
                    /\ Os.open_w f1 target = Os.Opens loc)
     /\ (plain_name (video_id s) = true ->
         loc = ["summaries"; "summary_" +:+ video_id s +:+ ".json"]))
  /\ (events w' = events w ++ [MkdirRequest ["summaries"]]
      \/ events w' = events w ++ [MkdirRequest ["summaries"]; OpenWriteRequest target])
  /\ (plain_name (video_id s) = true ->
      refuses (host (fs w)) (MkdirRequest ["summaries"]) = false ->
      refuses (host (fs w)) (OpenWriteRequest target) = false ->
      write_limit (host (fs w)) target = None ->
      files (fs w) !! ["summaries"] = None ->
      target ∉ dirs (fs w) ->
      persisted s (fs w) target)
  /\ read_document text
     = Some [("video_id", Some (video_id s)); ("transcript", transcript s);
             ("summary", summary s); ("error", error s)]
  /\ (summary_dict s).*1 = ["video_id"; "transcript"; "summary"; "error"]
  /\ (forall o,
        Json.encode_value (Json.of_optional o)
        = match o with Some v => Json.encode_basestring v | None => "null" end)
  /\ (forall str,
        PyStr.all_chars unescaped str = true ->
        Json.encode_basestring str = q +:+ str +:+ q)
  /\ (forall pre c post,
        PyStr.is_ascii c = false ->
        Json.encode_basestring (pre +:+ String c post)
        = q +:+ Json.escape pre +:+ String c (Json.escape post) +:+ q)
  /\ (forall str,
        PyStr.all_chars (fun c => negb (PyStr.is_ascii c)) str = true ->
        Json.encode_basestring str = q +:+ str +:+ q)
  /\ document {| video_id := "a"; title := Some "A title";
                 transcript :=
                   Some (String "000" (String "001" (String "008" (String "009" EmptyString)))
                         +:+ String "010" (String "012" (String "013" EmptyString))
                         +:+ String "026" (String "031" EmptyString)
                         +:+ q +:+ bs +:+ String "127" (String "195" (String "169" "Hi")));
                 summary := None; error := Some EmptyString |}
     = "{" +:+ nl
       +:+ "  " +:+ q +:+ "video_id" +:+ q +:+ ": " +:+ q +:+ "a" +:+ q +:+ "," +:+ nl
       +:+ "  " +:+ q +:+ "transcript" +:+ q +:+ ": " +:+ q
           +:+ bs +:+ "u0000" +:+ bs +:+ "u0001" +:+ bs +:+ "b" +:+ bs +:+ "t"
           +:+ bs +:+ "n" +:+ bs +:+ "f" +:+ bs +:+ "r" +:+ bs +:+ "u001a"
           +:+ bs +:+ "u001f" +:+ bs +:+ q +:+ bs +:+ bs
           +:+ String "127" (String "195" (String "169" "Hi")) +:+ q +:+ "," +:+ nl
       +:+ "  " +:+ q +:+ "summary" +:+ q +:+ ": null," +:+ nl
       +:+ "  " +:+ q +:+ "error" +:+ q +:+ ": " +:+ q +:+ q +:+ nl
       +:+ "}".
Proof.
  cbn zeta. rewrite <- output_file_path.
  change (String "034" EmptyString) with Json.quote.
  change (String "010" EmptyString) with Json.newline.
  rewrite <- document_text.
  split; [|split; [|split; [|split; [|split; [|split; [|split; [|split; [|split]]]]]]]].
  - intros loc Hp. rewrite save_summary_fs. split; [by apply persisted_files|].
    destruct Hp as (f1 & Hmk & Hop & Hwr). split; [|split].
    + rewrite (save_summary_events_made _ _ _ Hmk), output_dir_eq. reflexivity.
    + exists f1. rewrite <- output_dir_eq. auto.
    + intros Hplain. by eapply plain_location.
  - rewrite <- output_dir_eq. apply save_summary_events.
  - apply persisted_plain.
  - apply read_document_document.
  - reflexivity.
  - apply encode_optional.
  - intros str Hstr. unfold Json.encode_basestring. by rewrite escape_unescaped.
  - intros pre c post Hc. unfold Json.encode_basestring.
    rewrite escape_keeps_non_ascii by exact Hc. by rewrite !str_app_assoc.
  - intros str Hstr. unfold Json.encode_basestring. by rewrite escape_non_ascii.
  - vm_compute. reflexivity.
Qed.

Lemma C7_witness :
  let s := success_record "abc123" (String "195" (String "169" " Hello")) "A summary." in
  let loc := ["summaries"; "summary_abc123.json"] in
  files (fs (_save_summary s empty_world).2) !! loc = Some (document s)
  /\ events (_save_summary s empty_world).2
     = [MkdirRequest ["summaries"]; OpenWriteRequest loc]
  /\ Json.encode_basestring (String "195" (String "169" " Hello"))
     = String "034" (String "195" (String "169" " Hello")) +:+ String "034" EmptyString.
Proof.
  cbn zeta.
  destruct (C7_persisted_document
              (success_record "abc123" (String "195" (String "169" " Hello")) "A summary.")
              empty_world) as (Hsave & _ & Hgoes & _ & _ & _ & Hlit & _).
  assert (Hp : persisted
                 (success_record "abc123" (String "195" (String "169" " Hello")) "A summary.")
                 (fs empty_world) ["summaries"; "summary_abc123.json"]).
  { apply Hgoes.
    - vm_compute. reflexivity.
    - vm_compute. reflexivity.
    - vm_compute. reflexivity.
    - vm_compute. reflexivity.
    - vm_compute. reflexivity.
    - vm_compute. intros H. discriminate H. }
  destruct (Hsave _ Hp) as (Hfiles & Hev & _). split; [|split].
  - rewrite Hfiles. vm_compute. reflexivity.
  - rewrite Hev. vm_compute. reflexivity.
  - apply Hlit. vm_compute. reflexivity.
Defined.



(** C9.  Whatever [save_to_file] is, when [process_video] returns a record
    with an error the file system is unchanged and every request made
    during the run is a service request: no [mkdir] and no [open] is asked
    for, while [_save_summary] always starts with a [mkdir] request, so it
    was not invoked. *)
Theorem C9_no_write_on_error (lib : UrlLib) (svc : Services) (self : YouTubeSummarizer)
    (url : string) (save_to_file : bool) (w : World) :
  let r := (process_video lib svc self url save_to_file w).1 in
  let w' := (process_video lib svc self url save_to_file w).2 in
  error r <> None ->
  fs w' = fs w
  /\ exists evs, events w' = events w ++ evs
                 /\ forallb is_service_request evs = true.
Proof.
  cbn zeta. rewrite process_video_run.
  destruct (extract_video_id lib url) as [vid|]; [destruct (truthy (Some vid))|];
    cbn zeta;
    [destruct (fetched_transcript svc vid) as [t|]; [destruct (truthy (Some t))|];
     cbn zeta;
     [destruct (api_generate_content svc (model_name self) (create_summary_prompt t))
        as [st|]; [destruct (truthy (Some st))|]|..]|..];
    cbn [fst snd error success_record no_summary_record no_transcript_record
         invalid_url_record];
    intros Herr; try (by destruct Herr);
    (split; [reflexivity|]).
  - eexists [_; _]. split; [cbn; rewrite <- app_assoc; reflexivity | reflexivity].
  - eexists [_; _]. split; [cbn; rewrite <- app_assoc; reflexivity | reflexivity].
  - eexists [_]. split; reflexivity.
  - eexists [_]. split; reflexivity.
  - exists []. split; [rewrite app_nil_r; reflexivity | reflexivity].
  - exists []. split; [rewrite app_nil_r; reflexivity | reflexivity].
Qed.

Lemma C9_witness :
  let r := (process_video ascii_lib failing_generation gemini_pro
              "https://youtu.be/abc123" true empty_world).1 in
  let w' := (process_video ascii_lib failing_generation gemini_pro
               "https://youtu.be/abc123" true empty_world).2 in
  fs w' = fs empty_world
  /\ exists evs, events w' = events empty_world ++ evs
                 /\ forallb is_service_request evs = true.
Proof.
  apply (C9_no_write_on_error ascii_lib failing_generation gemini_pro
           "https://youtu.be/abc123" true empty_world).
  vm_compute. discriminate.
Defined.

(** C10, as amended.  [extract_video_id] returns the empty string, not
    [None], for the short-link URL with an empty path and for an [/embed/]
    URL with nothing after the marker, whereas a [/watch] URL whose [v]
    parameter is empty gives [None].  [process_video] takes every empty
    identifier for an invalid URL: the record is failed, its [video_id] is
    the empty string, its error is the invalid-URL message, and nothing is
    requested. *)
Theorem C10_empty_identifier (lib : UrlLib) (svc : Services) (self : YouTubeSummarizer)
    (save_to_file : bool) (w : World) :
  extract_video_id lib "https://youtu.be/" = Some EmptyString
  /\ extract_video_id lib "https://www.youtube.com/embed/" = Some EmptyString
  /\ extract_video_id lib "https://www.youtube.com/watch?v=" = None
  /\ (forall url,
        extract_video_id lib url = Some EmptyString ->
        let r := (process_video lib svc self url save_to_file w).1 in
        video_id r = EmptyString
        /\ error r = Some "Invalid YouTube URL"
        /\ Failed r
        /\ (process_video lib svc self url save_to_file w).2 = w).
Proof.
  split; [vm_compute; reflexivity|]. split; [vm_compute; reflexivity|].
  split; [vm_compute; reflexivity|].
  intros url H. cbn zeta. rewrite process_video_run, H. cbn.
  repeat split. discriminate.
Qed.

Lemma C10_witness :
  let r := (process_video ascii_lib demo_services gemini_pro "https://youtu.be/" true
              empty_world).1 in
  video_id r = EmptyString
  /\ error r = Some "Invalid YouTube URL"
  /\ Failed r
  /\ (process_video ascii_lib demo_services gemini_pro "https://youtu.be/" true
        empty_world).2 = empty_world.
Proof.
  apply (proj2 (proj2 (proj2 (C10_empty_identifier ascii_lib demo_services gemini_pro true
                                empty_world)))).
  vm_compute. reflexivity.
Defined.

Lemma C10_counterexample :
  extract_video_id ascii_lib "https://www.youtube.com/watch?v=" = None
  /\ extract_video_id ascii_lib "https://www.youtube.com/watch?v=" <> Some EmptyString.
Proof. split; [vm_compute; reflexivity | vm_compute; discriminate]. Qed.

(** * Further properties *)

Section Orchestration.
Context (lib : UrlLib) (svc : Services).

Lemma join_empty_iff sep (l : list string) :
  sep <> EmptyString ->
  PyStr.join sep l = EmptyString <-> l = [] \/ l = [EmptyString].
Proof.
  intros Hsep. destruct l as [|x [|y l]].
  - split; [by left|reflexivity].
  - simpl. split; [intros ->; by right|]. intros [[=]|[= ->]]. reflexivity.
  - assert (Hj : PyStr.join sep (x :: y :: l) = x +:+ sep +:+ PyStr.join sep (y :: l))
      by reflexivity.
    rewrite Hj. split.
    + destruct x; [|discriminate]. rewrite str_app_nil_l.
      destruct sep; [congruence|discriminate].
    + intros [[=]|[=]].
Qed.

(** X8.  [get_transcript] yields nothing, so that [process_video] reports
    the transcript failure, exactly when the transcript service raises, or
    returns no segment at all, or returns a single segment whose text is
    empty.  Two or more empty segments already give a transcript made of
    spaces, which counts as fetched. *)
Theorem X8_transcript_stage_fails_iff (vid : string) (w : World) :
  truthy (get_transcript svc vid None w).1 = false
  <-> api_get_transcript svc vid ["es"; "en"] = None
      \/ exists segments,
           api_get_transcript svc vid ["es"; "en"] = Some segments
           /\ (segments = [] \/ exists seg, segments = [seg] /\ text seg = EmptyString).
Proof.
  rewrite get_transcript_run. cbn [fst]. unfold fetched_transcript.
  destruct (api_get_transcript svc vid ["es"; "en"]) as [segments|].
  - rewrite truthy_false. split.
    + intros [[=]|[= H]]. right. exists segments. split; [reflexivity|].
      apply (proj1 (join_empty_iff " " _ ltac:(done))) in H as [H|H].
      * left. by destruct segments.
      * right. destruct segments as [|seg [|? ?]]; try done.
        exists seg. split; [reflexivity|]. by injection H.
    + intros [[=]|(segs & [= <-] & H)]. right. f_equal.
      apply join_empty_iff; [done|].
      destruct H as [->|(seg & -> & Ht)]; [by left|right]. simpl. by rewrite Ht.
  - split; [by left|reflexivity].
Qed.

(** X1.  When an identifier is found, the transcript is not empty and the
    service answers the prompt built from that transcript with a text that
    is not empty, [process_video] returns the record with these three
    values and no error.  It has made the transcript request and then the
    generation request, the latter for the model of the summarizer; with
    [save_to_file] it has then run [_save_summary] on the returned record,
    and without it nothing else. *)
Theorem X1_success_path (self : YouTubeSummarizer) (url vid t st : string)
    (save_to_file : bool) (w : World) :
  extract_video_id lib url = Some vid -> vid <> EmptyString ->
  (get_transcript svc vid None w).1 = Some t -> t <> EmptyString ->
  api_generate_content svc (model_name self) (create_summary_prompt t) = Some st ->
  st <> EmptyString ->
  let r := (process_video lib svc self url save_to_file w).1 in
  let w' := (process_video lib svc self url save_to_file w).2 in
  let requests := [TranscriptRequest vid ["es"; "en"];
                   GenerationRequest (model_name self) (create_summary_prompt t)] in
  r = {| video_id := vid; title := None; transcript := Some t; summary := Some st;
         error := None |}
  /\ (if save_to_file
      then w' = (_save_summary r (after w requests)).2
      else w' = after w requests).
Proof.
  intros Hid Hvid Ht Htne Hgen Hst. rewrite get_transcript_run in Ht. cbn [fst] in Ht.
  cbn zeta. rewrite process_video_run, Hid.
  rewrite (proj2 (truthy_true (Some vid))) by eauto. cbn zeta. rewrite Ht.
  rewrite (proj2 (truthy_true (Some t))) by eauto. cbn zeta. rewrite Hgen.
  rewrite (proj2 (truthy_true (Some st))) by eauto.
  unfold success_record, after. cbn [fst snd events fs].
  split; [reflexivity|]. rewrite <- app_assoc. destruct save_to_file; reflexivity.
Qed.

(** X2.  When the generation service raises or answers with the empty
    text, [process_video] returns the record with the identifier and the
    transcript, no summary and the generation error; it has made the two
    service requests and, whatever [save_to_file] is, nothing else. *)
Theorem X2_generation_failure (self : YouTubeSummarizer) (url vid t : string)
    (save_to_file : bool) (w : World) :
  extract_video_id lib url = Some vid -> vid <> EmptyString ->
  (get_transcript svc vid None w).1 = Some t -> t <> EmptyString ->
  truthy (api_generate_content svc (model_name self) (create_summary_prompt t)) = false ->
  process_video lib svc self url save_to_file w
  = ({| video_id := vid; title := None; transcript := Some t; summary := None;
        error := Some "Failed to generate summary" |},
     after w [TranscriptRequest vid ["es"; "en"];
              GenerationRequest (model_name self) (create_summary_prompt t)]).
Proof.
  intros Hid Hvid Ht Htne Hgen. rewrite get_transcript_run in Ht. cbn [fst] in Ht.
  rewrite process_video_run, Hid.
  rewrite (proj2 (truthy_true (Some vid))) by eauto. cbn zeta. rewrite Ht.
  rewrite (proj2 (truthy_true (Some t))) by eauto. cbn zeta.
  unfold no_summary_record, after. cbn [events fs]. rewrite <- app_assoc.
  destruct (api_generate_content svc (model_name self) (create_summary_prompt t)) as [st|];
    [rewrite Hgen|]; reflexivity.
Qed.

(** X4.  The record that [process_video] returns depends neither on
    [save_to_file] nor on the state of the file system: saving, and a
    failure to save, never change the result. *)
Theorem X4_record_independent_of_saving (self : YouTubeSummarizer) (url : string)
    (save1 save2 : bool) (w1 w2 : World) :
  (process_video lib svc self url save1 w1).1 = (process_video lib svc self url save2 w2).1.
Proof.
  rewrite !process_video_run.
  destruct (extract_video_id lib url) as [vid|]; [|reflexivity].
  destruct (truthy (Some vid)); [|reflexivity]. cbn zeta.
  destruct (fetched_transcript svc vid) as [t|]; [|reflexivity].
  destruct (truthy (Some t)); [|reflexivity]. cbn zeta.
  destruct (api_generate_content svc (model_name self) (create_summary_prompt t)) as [st|];
    [|reflexivity].
  destruct (truthy (Some st)); reflexivity.
Qed.

End Orchestration.

Lemma X1_witness :
  (process_video ascii_lib demo_services gemini_pro "https://youtu.be/abc123" false
     empty_world).1
  = success_record "abc123" "Hello world" "A summary.".
Proof.
  refine (proj1 (X1_success_path ascii_lib demo_services gemini_pro
                   "https://youtu.be/abc123" "abc123" "Hello world" "A summary."
                   false empty_world _ _ _ _ _ _));
    first [discriminate | vm_compute; reflexivity].
Defined.

Lemma X2_witness :
  (process_video ascii_lib failing_generation gemini_pro "https://youtu.be/abc123" true
     empty_world).1
  = no_summary_record "abc123" "Hello world".
Proof.
  rewrite (X2_generation_failure ascii_lib failing_generation gemini_pro
             "https://youtu.be/abc123" "abc123" "Hello world" true empty_world);
    first [reflexivity | discriminate | vm_compute; reflexivity].
Defined.

Section Outcomes.
Context (lib : UrlLib) (svc : Services).

Ltac process_video_cases self url :=
  rewrite ?process_video_run;
  destruct (extract_video_id lib url) as [vid|];
    [destruct (truthy (Some vid)) eqn:Hvid|]; cbn zeta;
    [destruct (fetched_transcript svc vid) as [t|];
       [destruct (truthy (Some t)) eqn:Ht|]; cbn zeta;
       [destruct (api_generate_content svc (model_name self) (create_summary_prompt t))
          as [st|]; [destruct (truthy (Some st)) eqn:Hst|]|..]|..].

(** X5.  In every record that [process_video] returns the title is unset;
    the error is absent or one of the three messages; the identifier is the
    empty string exactly in the invalid-URL record; and a transcript or a
    summary that is present is never the empty string. *)
Theorem X5_record_fields (self : YouTubeSummarizer) (url : string)
    (save_to_file : bool) (w : World) :
  let r := (process_video lib svc self url save_to_file w).1 in
  title r = None
  /\ (error r = None \/ error r = Some "Invalid YouTube URL"
      \/ error r = Some "Failed to fetch transcript"
      \/ error r = Some "Failed to generate summary")
  /\ (video_id r = EmptyString <-> error r = Some "Invalid YouTube URL")
  /\ transcript r <> Some EmptyString
  /\ summary r <> Some EmptyString.
Proof.
  cbn zeta. process_video_cases self url;
    cbn [fst title error video_id transcript summary success_record no_summary_record
         no_transcript_record invalid_url_record];
    try (apply truthy_true in Hvid as (? & [= <-] & Hvid));
    try (apply truthy_true in Ht as (? & [= <-] & Ht));
    try (apply truthy_true in Hst as (? & [= <-] & Hst));
    (split; [reflexivity|]); (split; [tauto|]);
    (split; [split; [try done; by intros ?|try done]|]);
    split; congruence.
Qed.

(** X3.  [process_video] returns a record without error exactly when all
    three stages yield a text that is not empty: the identifier, the
    transcript, and the answer to the prompt built from that transcript. *)
Theorem X3_success_criterion (self : YouTubeSummarizer) (url : string)
    (save_to_file : bool) (w : World) :
  error (process_video lib svc self url save_to_file w).1 = None
  <-> exists vid t st,
        extract_video_id lib url = Some vid /\ vid <> EmptyString
        /\ (get_transcript svc vid None w).1 = Some t /\ t <> EmptyString
        /\ api_generate_content svc (model_name self) (create_summary_prompt t) = Some st
        /\ st <> EmptyString.
Proof.
  rewrite process_video_run. split.
  - destruct (extract_video_id lib url) as [vid|]; [|discriminate].
    destruct (truthy (Some vid)) eqn:Hvid; [|discriminate]. cbn zeta.
    destruct (fetched_transcript svc vid) as [t|] eqn:Hf; [|discriminate].
    destruct (truthy (Some t)) eqn:Ht; [|discriminate]. cbn zeta.
    destruct (api_generate_content svc (model_name self) (create_summary_prompt t))
      as [st|] eqn:Hg; [|discriminate].
    destruct (truthy (Some st)) eqn:Hst; [|discriminate]. intros _.
    apply truthy_true in Hvid as (? & [= <-] & Hvid).
    apply truthy_true in Ht as (? & [= <-] & Ht).
    apply truthy_true in Hst as (? & [= <-] & Hst).
    exists vid, t, st. rewrite get_transcript_run. cbn [fst]. auto 10.
  - intros (vid & t & st & Hid & Hvid & Ht & Htne & Hg & Hst).
    rewrite get_transcript_run in Ht. cbn [fst] in Ht. rewrite Hid.
    rewrite (proj2 (truthy_true (Some vid))) by eauto. cbn zeta. rewrite Ht.
    rewrite (proj2 (truthy_true (Some t))) by eauto. cbn zeta. rewrite Hg.
    rewrite (proj2 (truthy_true (Some st))) by eauto. reflexivity.
Qed.

(** X6.  The requests of one run of [process_video] are an initial part of
    the sequence: one transcript request with the languages [es], [en]; one
    generation request for the model of the summarizer; one [mkdir] of
    [summaries]; one [open].  No request is repeated and none is made
    before the one that precedes it in this order. *)
Theorem X6_requests_in_order (self : YouTubeSummarizer) (url : string)
    (save_to_file : bool) (w : World) :
  let w' := (process_video lib svc self url save_to_file w).2 in
  exists new vid prompt target,
    events w' = events w ++ new
    /\ new `prefix_of` [TranscriptRequest vid ["es"; "en"];
                        GenerationRequest (model_name self) prompt;
                        MkdirRequest ["summaries"];
                        OpenWriteRequest target].
Proof.
  cbn zeta. process_video_cases self url; cbn [snd].
  - destruct save_to_file.
    + destruct (save_summary_events (success_record vid t st)
                  (after (after w [TranscriptRequest vid ["es"; "en"]])
                     [GenerationRequest (model_name self) (create_summary_prompt t)]))
        as [H|H]; rewrite H; cbn [events after]; rewrite <- !app_assoc; cbn [app].
      * eexists _, vid, _, []. split; [reflexivity|]. rewrite output_dir_eq.
        by eexists [_].
      * eexists _, vid, _, _. split; [reflexivity|]. rewrite output_dir_eq. by exists [].
    + cbn [events after]. rewrite <- app_assoc. cbn [app].
      eexists _, vid, _, []. split; [reflexivity|]. by eexists [_; _].
  - cbn [events after]. rewrite <- app_assoc. cbn [app].
    eexists _, vid, _, []. split; [reflexivity|]. by eexists [_; _].
  - cbn [events after]. rewrite <- app_assoc. cbn [app].
    eexists _, vid, _, []. split; [reflexivity|]. by eexists [_; _].
  - eexists _, vid, EmptyString, []. split; [reflexivity|]. by eexists [_; _; _].
  - eexists _, vid, EmptyString, []. split; [reflexivity|]. by eexists [_; _; _].
  - exists [], EmptyString, EmptyString, []. split; [by rewrite app_nil_r|]. by eexists.
  - exists [], EmptyString, EmptyString, []. split; [by rewrite app_nil_r|]. by eexists.
Qed.

(** X7.  Without [save_to_file], [process_video] leaves the file system as
    it is and makes service requests only, whatever the outcome. *)
Theorem X7_no_save_no_files (self : YouTubeSummarizer) (url : string) (w : World) :
  let w' := (process_video lib svc self url false w).2 in
  fs w' = fs w
  /\ exists new, events w' = events w ++ new /\ forallb is_service_request new = true.
Proof.
  cbn zeta. process_video_cases self url; cbn [snd after fs events];
    (split; [reflexivity|]); rewrite <- ?app_assoc;
    first [ by eexists [_; _] | by eexists [_] | (exists []; by rewrite app_nil_r) ].
Qed.

(** X9.  [main], with the key and the URL written in it, prints the single
    line of the invalid-URL error when the configuration succeeds and
    nothing when it raises; the URL has no host, so no service is contacted
    and no file is written, whatever the services would answer. *)
Theorem X9_main_prints_invalid_url (configure_ok : string -> bool) (w : World) :
  main lib svc configure_ok w
  = (if configure_ok "api-------------" then ["Error: Invalid YouTube URL"] else [], w).
Proof.
  unfold main, new_summarizer, configure_gemini.
  destruct (configure_ok "api-------------"); [|reflexivity].
  unfold bind. rewrite process_video_run.
  assert (H : extract_video_id lib "https:---------" = None) by (vm_compute; reflexivity).
  rewrite H. reflexivity.
Qed.

End Outcomes.

Section PromptAndJson.

Lemma str_app_inv_tail (s1 s2 t : string) : s1 +:+ t = s2 +:+ t -> s1 = s2.
Proof.
  revert s2. induction s1 as [|c s1 IH]; intros [|d s2] H.
  - reflexivity.
  - exfalso. apply (f_equal String.length) in H.
    rewrite str_app_nil_l, str_app_cons in H. cbn [String.length] in H.
    rewrite str_length_app in H. lia.
  - exfalso. apply (f_equal String.length) in H.
    rewrite str_app_nil_l, str_app_cons in H. cbn [String.length] in H.
    rewrite str_length_app in H. lia.
  - rewrite !str_app_cons in H. injection H as -> H. f_equal. by apply IH.
Qed.

(** X10.  Different transcripts give different prompts. *)
Theorem X10_prompt_injective (t1 t2 : string) :
  create_summary_prompt t1 = create_summary_prompt t2 -> t1 = t2.
Proof.
  unfold create_summary_prompt. intros H.
  apply String.app_inj in H. by apply str_app_inv_tail in H.
Qed.

Lemma read_value_encode v rest :
  read_value (Json.encode_value v +:+ rest) = Some (v, rest).
Proof.
  destruct v as [|s].
  { cbn [Json.encode_value]. rewrite !str_app_cons, str_app_nil_l.
    cbn [read_value]. change (Ascii.eqb "n" "034") with false. cbn iota.
    rewrite !prefix_cons, prefix_nil_l.
    rewrite !bool_decide_eq_true_2 by reflexivity. reflexivity. }
  unfold Json.encode_value, Json.encode_basestring.
  rewrite !str_app_assoc. unfold Json.quote at 1. rewrite str_app_cons, str_app_nil_l.
  cbn [read_value]. change (Ascii.eqb "034" "034") with true. cbn iota.
  rewrite read_escaped_escape. reflexivity.
Qed.

Lemma of_optional_inj o1 o2 : Json.of_optional o1 = Json.of_optional o2 -> o1 = o2.
Proof. destruct o1, o2; simpl; congruence. Qed.

(** X11.  The JSON document determines the four fields it records: two
    records with the same document have the same identifier, transcript,
    summary and error, a missing value being told apart from every text.
    The escaping of quotes, backslashes and control characters loses
    nothing. *)
Theorem X11_document_injective (s1 s2 : VideoSummary) :
  document s1 = document s2 ->
  video_id s1 = video_id s2 /\ transcript s1 = transcript s2
  /\ summary s1 = summary s2 /\ error s1 = error s2.
Proof.
  rewrite !document_text. intros H.
  repeat (apply String.app_inj in H).
  apply (f_equal read_value) in H.
  change (Json.encode_basestring (video_id s1)) with (Json.encode_value (Json.Str (video_id s1))) in H.
  change (Json.encode_basestring (video_id s2)) with (Json.encode_value (Json.Str (video_id s2))) in H.
  rewrite !read_value_encode in H. apply (inj Some), pair_equal_spec in H as [Hid H].
  repeat (apply String.app_inj in H).
  apply (f_equal read_value) in H. rewrite !read_value_encode in H. apply (inj Some), pair_equal_spec in H as [Ht H].
  repeat (apply String.app_inj in H).
  apply (f_equal read_value) in H. rewrite !read_value_encode in H. apply (inj Some), pair_equal_spec in H as [Hs H].
  repeat (apply String.app_inj in H).
  apply (f_equal read_value) in H. rewrite !read_value_encode in H. apply (inj Some), pair_equal_spec in H as [He H].
  injection Hid as Hid. repeat split; auto using of_optional_inj.
Qed.

Lemma escape_char_printable c :
  PyStr.all_chars (fun x => (32 <=? PyStr.code x)%N) (Json.escape_char c) = true.
Proof. destruct c as [[] [] [] [] [] [] [] []]; reflexivity. Qed.

Lemma all_chars_app p s t :
  PyStr.all_chars p (s +:+ t) = PyStr.all_chars p s && PyStr.all_chars p t.
Proof.
  induction s as [|c s IH]; [reflexivity|].
  rewrite str_app_cons. cbn [PyStr.all_chars]. rewrite IH, andb_assoc. reflexivity.
Qed.

Lemma escape_printable s :
  PyStr.all_chars (fun x => (32 <=? PyStr.code x)%N) (Json.escape s) = true.
Proof.
  induction s as [|c s IH]; [reflexivity|].
  cbn [Json.escape]. rewrite all_chars_app, escape_char_printable, IH. reflexivity.
Qed.

Lemma count_char_app c s t : count_char c (s +:+ t) = count_char c s + count_char c t.
Proof.
  induction s as [|d s IH]; [reflexivity|].
  rewrite str_app_cons. cbn [count_char]. rewrite IH. lia.
Qed.

Lemma count_char_printable c s :
  (PyStr.code c < 32)%N ->
  PyStr.all_chars (fun x => (32 <=? PyStr.code x)%N) s = true ->
  count_char c s = 0.
Proof.
  intros Hc. induction s as [|d s IH]; [reflexivity|].
  cbn [PyStr.all_chars count_char]. rewrite andb_true_iff. intros [Hd Hs].
  rewrite IH by exact Hs. apply N.leb_le in Hd.
  destruct (Ascii.eqb_spec c d) as [->|_]; [lia|reflexivity].
Qed.

Lemma encode_value_printable v :
  PyStr.all_chars (fun x => (32 <=? PyStr.code x)%N) (Json.encode_value v) = true.
Proof.
  destruct v as [|s]; [reflexivity|].
  unfold Json.encode_value, Json.encode_basestring.
  rewrite !all_chars_app, escape_printable. reflexivity.
Qed.

(** X12.  Whatever the fields contain, the document has exactly five line
    feeds, those of the layout, and no other control character: line breaks
    and control characters of the transcript and of the summary are written
    as escapes, so the file has six lines. *)
Theorem X12_document_line_breaks (s : VideoSummary) :
  count_char "010" (document s) = 5
  /\ forall c, (PyStr.code c < 32)%N -> c <> "010"%char -> count_char c (document s) = 0.
Proof.
  assert (Hv : forall c v, (PyStr.code c < 32)%N -> count_char c (Json.encode_value v) = 0).
  { intros c v Hc. apply count_char_printable; [exact Hc|apply encode_value_printable]. }
  assert (Hs : forall c x, (PyStr.code c < 32)%N ->
                 count_char c (Json.encode_basestring x) = 0).
  { intros c x Hc. exact (Hv c (Json.Str x) Hc). }
  rewrite document_text. split.
  - rewrite !count_char_app, Hs, !Hv by (vm_compute; reflexivity). reflexivity.
  - intros c Hc Hne. rewrite !count_char_app, Hs, !Hv by exact Hc.
    unfold Json.newline, Json.quote. cbn [count_char].
    destruct (Ascii.eqb_spec c "010") as [->|_]; [done|].
    assert (Hlit : forall d, (32 <= PyStr.code d)%N -> Ascii.eqb c d = false).
    { intros d Hd. destruct (Ascii.eqb_spec c d) as [->|_]; [lia|reflexivity]. }
    rewrite !Hlit by (vm_compute; discriminate). reflexivity.
Qed.

End PromptAndJson.

Lemma X10_witness : "Hello world" = "Hello world".
Proof.
  exact (X10_prompt_injective "Hello world" "Hello world" eq_refl).
Defined.

Lemma X11_witness :
  transcript (success_record "abc123" "Hello world" "A summary.") = Some "Hello world".
Proof.
  exact (proj1 (proj2 (X11_document_injective
                         (success_record "abc123" "Hello world" "A summary.")
                         (success_record "abc123" "Hello world" "A summary.")
                         eq_refl))).
Defined.

Lemma X12_witness :
  count_char "009"
    (document (success_record "abc123" (String "009" "Hello") "A summary.")) = 0.
Proof.
  apply (proj2 (X12_document_line_breaks
                  (success_record "abc123" (String "009" "Hello") "A summary."))).
  - vm_compute. reflexivity.
  - discriminate.
Defined.

Section Persistence.


(** X14.  [_save_summary] removes nothing and changes at most one file:
    the directories are those of before, with [summaries] added when it was
    made; either the files are those of before, or one of them is set to
    the document or, when a write fails, to a part of the document that
    starts it; every file that existed still exists; the host is the
    same. *)
Theorem X14_save_leaves_the_rest (s : VideoSummary) (w : World) :
  let f := fs w in
  let f' := fs (_save_summary s w).2 in
  (dirs f' = dirs f \/ dirs f' = dirs f ∪ {[ ["summaries"] ]})
  /\ (files f' = files f
      \/ exists loc content,
           files f' = <[loc := content]> (files f)
           /\ String.prefix content (document s) = true)
  /\ (forall p, is_Some (files f !! p) -> is_Some (files f' !! p))
  /\ host f' = host f.
Proof.
  cbn zeta. rewrite save_summary_fs.
  destruct (Os.mkdir (fs w) output_dir) as [f1|] eqn:Hmk.
  2:{ unfold saved_fs. rewrite Hmk. split; [by left|]. split; [by left|]. split; auto. }
  destruct (mkdir_files _ _ Hmk) as [Hf Hh].
  pose proof (mkdir_dirs _ _ Hmk) as Hd.
  rewrite (saved_fs_made _ _ _ Hmk).
  destruct (Os.open_w f1 (output_file s)) as [| |loc] eqn:Hop; cbn [dirs files host];
    rewrite ?Hf, ?Hh.
  - split; [exact Hd|]. split; [by left|]. split; auto.
  - split; [exact Hd|]. split; [by left|]. split; auto.
  - split; [exact Hd|]. split; [right|split; [|reflexivity]].
    + eexists loc, _. split; [reflexivity|]. unfold Os.written.
      destruct (write_limit _ _); [apply prefix_take|].
      apply prefix_spec. exists EmptyString. by rewrite str_app_nil_r.
    + intros p Hp. destruct (decide (loc = p)) as [<-|Hne].
      * rewrite lookup_insert_eq. eauto.
      * by rewrite lookup_insert_ne.
Qed.

(** X15.  When [summaries] exists as a regular file, [mkdir] raises inside
    the [try] block: [_save_summary] returns normally, the file system is
    unchanged and [open] is not attempted. *)
Theorem X15_save_blocked_by_file (s : VideoSummary) (w : World) :
  is_Some (files (fs w) !! ["summaries"]) ->
  ["summaries"] ∉ dirs (fs w) ->
  _save_summary s w = (tt, after w [MkdirRequest ["summaries"]]).
Proof.
  intros Hfile Hdir. unfold _save_summary, bind. rewrite mkdir_exist_ok_run.
  assert (Hmk : Os.mkdir (fs w) output_dir = None).
  { rewrite mkdir_output_dir. destruct (refuses _ _); [reflexivity|].
    rewrite bool_decide_eq_false_2 by exact Hdir.
    rewrite bool_decide_eq_true_2 by exact Hfile. reflexivity. }
  rewrite Hmk, output_dir_eq. reflexivity.
Qed.

Lemma partition_slash_summary x :
  PyStr.partition "/" ("summary_" +:+ x)
  = match PyStr.partition "/" x with
    | Some (a, b) => Some ("summary_" +:+ a, b)
    | None => None
    end.
Proof.
  rewrite !str_app_cons, str_app_nil_l.
  repeat (rewrite partition_char_cons, bool_decide_eq_false_2 by discriminate).
  destruct (PyStr.partition "/" x) as [[a b]|]; reflexivity.
Qed.

(** The target has the directory [summaries] and at least one component
    below it, whose name starts with [summary_]. *)
Lemma output_file_shape s :
  exists a rest, output_file s = "summaries" :: ("summary_" +:+ a) :: rest.
Proof.
  unfold output_file, Os.path_div, Os.path_of_str. rewrite output_dir_eq.
  rewrite split_step, partition_slash_summary.
  destruct (PyStr.partition "/" (video_id s +:+ ".json")) as [[a b]|].
  - rewrite filter_cons_True by (split; discriminate). cbn [app]. eauto.
  - rewrite filter_cons_True by (split; discriminate). cbn [app]. eauto.
Qed.

(** X16.  The directories that an identifier with slashes names below
    [summaries] are not created: when the target has two components or
    more below [summaries] and the first of them is not a directory there,
    no file is written. *)
Theorem X16_missing_directory (s : VideoSummary) (w : World)
    (c1 c2 : string) (rest : list string) :
  output_file s = "summaries" :: c1 :: c2 :: rest ->
  ["summaries"; c1] ∉ dirs (fs w) ->
  files (fs (_save_summary s w).2) = files (fs w).
Proof.
  intros Hout Hd. rewrite save_summary_fs.
  destruct (Os.mkdir (fs w) output_dir) as [f1|] eqn:Hmk;
    [|unfold saved_fs; by rewrite Hmk].
  destruct (mkdir_files _ _ Hmk) as [Hf Hh].
  pose proof (mkdir_dirs _ _ Hmk) as Hdirs.
  rewrite (saved_fs_made _ _ _ Hmk).
  assert (Hop : Os.open_w f1 (output_file s) = Os.Raises); [|by rewrite Hop].
  assert (Hc1 : c1 <> "..").
  { destruct (output_file_shape s) as (a & rest' & Ha). rewrite Hout in Ha.
    injection Ha as -> _. apply summary_name_not_dotdot. }
  assert (Hmiss : ["summaries"; c1] ∉ dirs f1).
  { destruct Hdirs as [->| ->]; [exact Hd|].
    rewrite elem_of_union, elem_of_singleton. intros [?|?]; [auto|discriminate]. }
  unfold Os.open_w. destruct (Os.has_nul _); [reflexivity|].
  destruct (refuses _ _); [reflexivity|].
  rewrite Hout. unfold Os.resolve. cbn [Os.resolve_from]. unfold Os.is_dir.
  rewrite (bool_decide_eq_true_2 ([] = [])) by reflexivity. cbn [orb negb].
  rewrite (bool_decide_eq_false_2 ("summaries" = "..")) by discriminate.
  destruct (bool_decide ([] ++ ["summaries"] = []) || bool_decide ([] ++ ["summaries"] ∈ dirs f1));
    [|reflexivity].
  cbn [negb app]. rewrite (bool_decide_eq_false_2 (c1 = "..")) by exact Hc1.
  rewrite (bool_decide_eq_false_2 (["summaries"; c1] = [])) by discriminate.
  rewrite (bool_decide_eq_false_2 (["summaries"; c1] ∈ dirs f1)) by exact Hmiss.
  reflexivity.
Qed.

(** X17.  Two records whose identifiers are plain file names, without
    slash and without NUL, are saved to the same file only when the
    identifiers are equal. *)
Theorem X17_plain_names_distinct_files (s1 s2 : VideoSummary) :
  plain_name (video_id s1) = true -> plain_name (video_id s2) = true ->
  output_file s1 = output_file s2 -> video_id s1 = video_id s2.
Proof.
  intros H1 H2. rewrite (output_file_video_id s1), (output_file_video_id s2).
  destruct (plain_file_name _ H1) as [-> _]. destruct (plain_file_name _ H2) as [-> _].
  intros [= H]. apply String.app_inj in H. by apply str_app_inv_tail in H.
Qed.

End Persistence.


Lemma X14_witness :
  let w := {| events := [];
              fs := {| dirs := ∅; files := {[ ["notes.txt"] := "keep" ]};
                       host := linux_host |} |} in
  is_Some (files (fs (_save_summary (success_record "abc123" "Hello world" "A summary.")
                        w).2) !! ["notes.txt"]).
Proof.
  cbn zeta.
  apply (proj1 (proj2 (proj2 (X14_save_leaves_the_rest
                                (success_record "abc123" "Hello world" "A summary.")
                                {| events := [];
                                   fs := {| dirs := ∅; files := {[ ["notes.txt"] := "keep" ]};
                                            host := linux_host |} |})))).
  cbn [fs files]. rewrite lookup_singleton_eq. eauto.
Defined.

Lemma X16_witness :
  files (fs (_save_summary (success_record "a/b" "Hello world" "A summary.")
               empty_world).2)
  = files (fs empty_world).
Proof.
  apply (X16_missing_directory (success_record "a/b" "Hello world" "A summary.")
           empty_world "summary_a" "b.json" []).
  - vm_compute. reflexivity.
  - vm_compute. intros H. discriminate H.
Defined.

Lemma X15_witness :
  let w := {| events := [];
              fs := {| dirs := ∅; files := {[ ["summaries"] := "not a directory" ]};
                       host := linux_host |} |} in
  _save_summary (success_record "abc123" "Hello world" "A summary.") w
  = (tt, after w [MkdirRequest ["summaries"]]).
Proof.
  apply X15_save_blocked_by_file.
  - cbn [fs files]. rewrite lookup_singleton_eq. eauto.
  - cbn [fs dirs]. apply not_elem_of_empty.
Defined.

Lemma X17_witness : "abc123" = "abc123".
Proof.
  apply (X17_plain_names_distinct_files
           (success_record "abc123" "Hello world" "A summary.")
           (success_record "abc123" "Hello again" "Another summary."));
    vm_compute; reflexivity.
Defined.

(** Two saves on hosts as they are.  An identifier that goes up through
    [..]: with the directory [summaries/summary_x] in place, the save of the
    identifier [x/../keep] replaces the file [summaries/keep.json], which
    is not the file of its four names. *)
Example save_through_parent_directory :
  let w := {| events := [];
              fs := {| dirs := {[ ["summaries"]; ["summaries"; "summary_x"] ]};
                       files := {[ ["summaries"; "keep.json"] := "old" ]};
                       host := linux_host |} |} in
  let s := success_record "x/../keep" "Hello world" "A summary." in
  output_file s = ["summaries"; "summary_x"; ".."; "keep.json"]
  /\ files (fs (_save_summary s w).2) = {[ ["summaries"; "keep.json"] := document s ]}.
Proof. cbn zeta. split; vm_compute; reflexivity. Qed.

(** An identifier of 300 bytes: the name of the file is longer than the
    host accepts, [open] raises, and the directory is all that the save
    leaves. *)
Example long_name_not_saved :
  let vid := PyStr.join EmptyString (replicate 30 "0123456789") in
  let s := success_record vid "Hello world" "A summary." in
  String.length vid = 300
  /\ plain_name vid = true
  /\ fs (_save_summary s empty_world).2
     = {| dirs := {[ ["summaries"] ]}; files := ∅; host := linux_host |}
  /\ events (_save_summary s empty_world).2
     = [MkdirRequest ["summaries"]; OpenWriteRequest (output_file s)].
Proof. cbn zeta. repeat split; vm_compute; reflexivity. Qed.

Section UrlShape.
Context (lib : UrlLib).
Import PyStr.

(** X18.  On a [/watch] URL of the canonical host, the identifier is the
    decoded value of the first query field named [v] that has a value:
    fields named [v] with an empty value before it are passed over, and
    later fields named [v] are not used. *)
Theorem X18_first_v_wins (url : string) (p : ParseResult)
    (pre post : list string) (field raw : string) :
  Url.urlparse lib url = Some p -> canonical_host p -> path p = "/watch" ->
  split "&" (query p) = pre ++ field :: post ->
  (forall g raw', g ∈ pre -> v_field lib g raw' -> raw' = EmptyString) ->
  v_field lib field raw -> raw <> EmptyString ->
  extract_video_id lib url = Some (Url.unquote lib (replace_char "+" " " raw)).
Proof.
  intros E Hc Hw Hsplit Hpre Hv Hraw. rewrite (extract_parsed _ _ _ E).
  rewrite bool_decide_eq_false_2 by (by apply canonical_not_short).
  rewrite bool_decide_eq_true_2 by (by apply canonical_host_elem).
  rewrite bool_decide_eq_true_2 by exact Hw.
  rewrite parse_qsl_fields, Hsplit, omap_app, values_of_app.
  rewrite values_of_none.
  - cbn -[values_of Url.parse_field Url.unquote replace_char].
    assert (Hf : Url.parse_field lib field
                 = Some ("v", Url.unquote lib (replace_char "+" " " raw)))
      by (apply parse_field_v; eauto).
    rewrite Hf, values_of_cons. rewrite decide_True by reflexivity. reflexivity.
  - intros g v Hg Hf. apply parse_field_v in Hf as (raw' & Hv' & Hne & _).
    apply Hne. by eapply Hpre.
Qed.


Lemma contains_suffix sub a t : contains sub t = true -> contains sub (a +:+ t) = true.
Proof.
  intros H. apply contains_true in H as (x & y & ->).
  rewrite <- str_app_assoc. apply contains_app.
Qed.

Lemma contains_prefix sub a t : contains sub a = true -> contains sub (a +:+ t) = true.
Proof.
  intros H. apply contains_true in H as (x & y & ->).
  rewrite !str_app_assoc. apply contains_app.
Qed.

Lemma not_contains_drop sub n s : contains sub s = false -> contains sub (drop n s) = false.
Proof.
  intros H. destruct (contains sub (drop n s)) eqn:E; [|reflexivity].
  rewrite <- (take_drop n s), (contains_suffix _ _ _ E) in H. discriminate.
Qed.

Lemma not_contains_take sub n s : contains sub s = false -> contains sub (take n s) = false.
Proof.
  intros H. destruct (contains sub (take n s)) eqn:E; [|reflexivity].
  rewrite <- (take_drop n s), (contains_prefix _ _ _ E) in H. discriminate.
Qed.

Lemma lstrip_suffix p s : exists w, s = w +:+ lstrip p s.
Proof.
  induction s as [|c s [w IH]]; [by exists EmptyString|].
  cbn [lstrip]. destruct (p c).
  - exists (String c w). rewrite str_app_cons. by f_equal.
  - by exists EmptyString.
Qed.

Lemma remove_char_app c s t :
  remove_char c (s +:+ t) = remove_char c s +:+ remove_char c t.
Proof.
  induction s as [|d s IH]; [reflexivity|].
  rewrite str_app_cons. cbn [remove_char]. destruct (Ascii.eqb c d); [exact IH|].
  rewrite str_app_cons. by f_equal.
Qed.

Lemma remove_unsafe_app s t :
  Url.remove_unsafe (s +:+ t) = Url.remove_unsafe s +:+ Url.remove_unsafe t.
Proof. unfold Url.remove_unsafe. by rewrite !remove_char_app. Qed.

Lemma split_scheme_suffix u : exists a, u = a +:+ (Url.split_scheme u).2.
Proof.
  unfold Url.split_scheme.
  destruct (find ":" u) as [i|]; [|by exists EmptyString].
  destruct u as [|c0 u0]; [by exists EmptyString|].
  destruct (bool_decide (0 < i) && is_ascii_alpha c0
            && all_chars Url.is_scheme_char (take i (String c0 u0)));
    [|by exists EmptyString].
  cbn [snd]. exists (take (S i) (String c0 u0)). by rewrite take_drop.
Qed.

(** X19.  A URL without a double slash, once its tabs and line breaks are
    removed, has no host for [urlparse], and [extract_video_id] returns
    [None]: [youtu.be/abc123] without a scheme is not recognised. *)
Theorem X19_needs_double_slash (url : string) :
  contains "//" (Url.remove_unsafe url) = false -> extract_video_id lib url = None.
Proof.
  intros H. unfold extract_video_id, Url.urlparse, Url.urlsplit.
  assert (Hu : contains "//" (Url.remove_unsafe (lstrip Url.is_c0_or_space url)) = false).
  { destruct (lstrip_suffix Url.is_c0_or_space url) as [w Hw].
    rewrite Hw, remove_unsafe_app in H.
    destruct (contains "//" (Url.remove_unsafe (lstrip Url.is_c0_or_space url))) eqn:E;
      [|reflexivity].
    by rewrite (contains_suffix _ _ _ E) in H. }
  set (u := Url.remove_unsafe (lstrip Url.is_c0_or_space url)) in *.
  destruct (split_scheme_suffix u) as [a Ha].
  destruct (Url.split_scheme u) as [sch rest]. cbn [snd] in Ha.
  assert (Hrest : contains "//" rest = false).
  { destruct (contains "//" rest) eqn:E; [|reflexivity].
    by rewrite Ha, (contains_suffix _ _ _ E) in Hu. }
  rewrite bool_decide_eq_false_2.
  2:{ intros Ht. rewrite <- (take_drop 2 rest), Ht in Hrest.
      assert (Hc := contains_app "//" EmptyString (drop 2 rest)).
      rewrite str_app_nil_l in Hc. congruence. }
  change (Url.brackets_ok lib EmptyString) with true.
  change (Url.checknetloc lib EmptyString) with true. cbn [negb].
  destruct (Url.split_once "#" rest EmptyString) as [u1 fragment].
  destruct (Url.split_once "?" u1 EmptyString) as [u2 query].
  destruct (if bool_decide (sch ∈ Url.uses_params) && contains ";" u2
            then Url.splitparams u2 else (u2, EmptyString)) as [pth prm].
  reflexivity.
Qed.

End UrlShape.

Lemma X19_witness : extract_video_id ascii_lib "youtu.be/abc123" = None.
Proof.
  apply X19_needs_double_slash. vm_compute. reflexivity.
Defined.

Lemma X18_witness :
  extract_video_id ascii_lib "https://www.youtube.com/watch?v=&t=1&v=first&v=second"
  = Some "first".
Proof.
  refine (X18_first_v_wins ascii_lib
            "https://www.youtube.com/watch?v=&t=1&v=first&v=second"
            {| scheme := "https"; netloc := "www.youtube.com"; path := "/watch";
               params := EmptyString; query := "v=&t=1&v=first&v=second";
               fragment := EmptyString |}
            ["v="; "t=1"] ["v=second"] "v=first" "first" _ _ _ _ _ _ _).
  - vm_compute. reflexivity.
  - right. reflexivity.
  - reflexivity.
  - vm_compute. reflexivity.
  - intros g raw' Hg [name [Hp Hn]].
    apply elem_of_cons in Hg as [->|Hg].
    + vm_compute in Hp. congruence.
    + apply list_elem_of_singleton in Hg as ->. vm_compute in Hp.
      injection Hp as <- <-. vm_compute in Hn. discriminate.
  - exists "v". split; vm_compute; reflexivity.
  - discriminate.
Defined.

Section UrlText.
Context (lib : UrlLib).
Import PyStr.

Lemma partition_char_first c s a b :
  partition (String c EmptyString) s = Some (a, b) ->
  contains (String c EmptyString) a = false.
Proof.
  revert a b. induction s as [|d s IH]; intros a b.
  - cbn. discriminate.
  - rewrite partition_char_cons. case_bool_decide as Hcd.
    + intros [= <- <-]. reflexivity.
    + destruct (partition (String c EmptyString) s) as [[a' b']|]; [|discriminate].
      intros [= <- <-]. rewrite contains_char_cons, bool_decide_eq_false_2 by exact Hcd.
      by eapply IH.
Qed.

Lemma split_once_clean c u dflt :
  contains (String c EmptyString) (Url.split_once (String c EmptyString) u dflt).1 = false.
Proof.
  unfold Url.split_once.
  destruct (partition (String c EmptyString) u) as [[a b]|] eqn:E; cbn [fst].
  - by eapply partition_char_first.
  - unfold contains. by rewrite E.
Qed.

Lemma split_once_keeps_clean sub sep u dflt :
  contains sub u = false -> contains sub (Url.split_once sep u dflt).1 = false.
Proof.
  intros H. unfold Url.split_once.
  destruct (partition sep u) as [[a b]|] eqn:E; cbn [fst]; [|exact H].
  apply partition_Some in E. destruct (contains sub a) eqn:Ha; [|reflexivity].
  by rewrite E, (contains_prefix _ _ _ Ha) in H.
Qed.

Lemma splitparams_keeps_clean sub u :
  contains sub u = false -> contains sub (Url.splitparams u).1 = false.
Proof.
  intros H. unfold Url.splitparams.
  destruct (if contains "/" u
            then match rfind "/" u with
                 | Some k => find_from ";" u k
                 | None => None
                 end
            else find ";" u) as [i|]; cbn [fst]; [|exact H].
  by apply not_contains_take.
Qed.

(** The path that [urlparse] returns holds neither [?] nor [#]. *)
Lemma urlparse_path_clean url p :
  Url.urlparse lib url = Some p ->
  contains "?" (path p) = false /\ contains "#" (path p) = false.
Proof.
  unfold Url.urlparse, Url.urlsplit.
  destruct (Url.split_scheme _) as [sch rest].
  destruct (if bool_decide (take 2 rest = "//") then Url.splitnetloc rest 2
            else (EmptyString, rest)) as [nl u0].
  destruct (negb (Url.brackets_ok lib nl)); [discriminate|].
  pose proof (split_once_clean "#" u0 EmptyString) as H1.
  destruct (Url.split_once "#" u0 EmptyString) as [u1 fragment]. cbn [fst] in H1.
  pose proof (split_once_clean "?" u1 EmptyString) as H2.
  pose proof (split_once_keeps_clean "#" "?" u1 EmptyString H1) as H3.
  destruct (Url.split_once "?" u1 EmptyString) as [u2 query]. cbn [fst] in H2, H3.
  destruct (negb (Url.checknetloc lib nl)); [discriminate|].
  pose proof (splitparams_keeps_clean "?" u2 H2) as H4.
  pose proof (splitparams_keeps_clean "#" u2 H3) as H5.
  destruct (bool_decide (sch ∈ Url.uses_params) && contains ";" u2).
  - destruct (Url.splitparams u2) as [pth prm]. intros [= <-]. cbn [path]. auto.
  - intros [= <-]. cbn [path]. auto.
Qed.

Lemma last_split_clean sub c r s t :
  contains sub s = false -> last (split (String c r) s) = Some t ->
  contains sub t = false.
Proof.
  intros Hs Hl.
  destruct (last_split c r s) as (t' & Hl' & _ & [[_ ->]|[pre Hpre]]);
    rewrite Hl' in Hl; injection Hl as <-; [exact Hs|].
  destruct (contains sub t') eqn:E; [|reflexivity].
  rewrite Hpre in Hs.
  by rewrite (contains_suffix _ pre _ (contains_suffix _ (String c r) _ E)) in Hs.
Qed.

(** X20.  An identifier that is taken from the path, which is every
    identifier but that of a [/watch] URL of the canonical host, holds
    neither a question mark nor a hash: the query and the fragment of the
    URL never reach it. *)
Theorem X20_path_identifier_clean (url : string) (p : ParseResult) (id : string) :
  Url.urlparse lib url = Some p ->
  ~ (canonical_host p /\ path p = "/watch") ->
  extract_video_id lib url = Some id ->
  contains "?" id = false /\ contains "#" id = false.
Proof.
  intros E Hnw. rewrite (extract_parsed _ _ _ E).
  destruct (urlparse_path_clean _ _ E) as [Hq Hf].
  case_bool_decide as Hs.
  - intros [= <-].
    split; [exact (not_contains_drop "?" 1 _ Hq)|exact (not_contains_drop "#" 1 _ Hf)].
  - case_bool_decide as Hc; [|discriminate].
    case_bool_decide as Hw.
    { exfalso. apply Hnw. split; [by apply canonical_host_elem|exact Hw]. }
    destruct (contains "/embed/" (path p)).
    + intros Hl. split; eapply last_split_clean; eauto.
    + destruct (contains "/v/" (path p)); [|discriminate].
      intros Hl. split; eapply last_split_clean; eauto.
Qed.

Lemma lstrip_app_strippable p ws s :
  all_chars p ws = true -> lstrip p (ws +:+ s) = lstrip p s.
Proof.
  induction ws as [|c ws IH]; [reflexivity|].
  cbn [all_chars]. rewrite andb_true_iff. intros [Hc Hws].
  rewrite str_app_cons. cbn [lstrip]. rewrite Hc. by apply IH.
Qed.

Lemma remove_unsafe_cons_unsafe c s :
  is_tab_or_newline c = true ->
  Url.remove_unsafe (String c s) = Url.remove_unsafe s.
Proof.
  unfold is_tab_or_newline. rewrite !orb_true_iff.
  intros [[H|H]|H]; apply Ascii.eqb_eq in H; subst c; unfold Url.remove_unsafe.
  - reflexivity.
  - cbn [remove_char]. change (Ascii.eqb "009" "010") with false. cbn iota.
    cbn [remove_char]. change (Ascii.eqb "010" "010") with true. reflexivity.
  - cbn [remove_char]. change (Ascii.eqb "009" "013") with false. cbn iota.
    cbn [remove_char]. change (Ascii.eqb "010" "013") with false. cbn iota.
    cbn [remove_char]. change (Ascii.eqb "013" "013") with true. reflexivity.
Qed.

Lemma unsafe_is_strippable c : is_tab_or_newline c = true -> Url.is_c0_or_space c = true.
Proof.
  unfold is_tab_or_newline. rewrite !orb_true_iff.
  intros [[H|H]|H]; apply Ascii.eqb_eq in H; subst c; reflexivity.
Qed.

Lemma normalise_insert a c b :
  is_tab_or_newline c = true ->
  Url.remove_unsafe (lstrip Url.is_c0_or_space (a +:+ String c b))
  = Url.remove_unsafe (lstrip Url.is_c0_or_space (a +:+ b)).
Proof.
  intros Hc. induction a as [|x a IH].
  - rewrite !str_app_nil_l. cbn [lstrip]. rewrite (unsafe_is_strippable _ Hc).
    reflexivity.
  - rewrite !str_app_cons. cbn [lstrip]. destruct (Url.is_c0_or_space x); [exact IH|].
    change (String x (a +:+ String c b)) with (String x a +:+ String c b).
    change (String x (a +:+ b)) with (String x a +:+ b).
    rewrite !remove_unsafe_app, (remove_unsafe_cons_unsafe c b Hc). reflexivity.
Qed.

(** X21.  White space does not change the identifier: spaces and control
    characters in front of the URL are dropped, and so is a tab, a line
    feed or a carriage return anywhere in it. *)
Theorem X21_whitespace_ignored (ws a b : string) (c : ascii) :
  (all_chars Url.is_c0_or_space ws = true ->
   extract_video_id lib (ws +:+ a) = extract_video_id lib a)
  /\ (is_tab_or_newline c = true ->
      extract_video_id lib (a +:+ String c b) = extract_video_id lib (a +:+ b)).
Proof.
  split.
  - intros Hws. unfold extract_video_id, Url.urlparse, Url.urlsplit.
    by rewrite lstrip_app_strippable.
  - intros Hc. unfold extract_video_id, Url.urlparse, Url.urlsplit.
    by rewrite normalise_insert.
Qed.

End UrlText.

Lemma X20_witness :
  PyStr.contains "?" "abc123" = false /\ PyStr.contains "#" "abc123" = false.
Proof.
  refine (X20_path_identifier_clean ascii_lib "https://youtu.be/abc123?t=5#top"
            {| scheme := "https"; netloc := "youtu.be"; path := "/abc123";
               params := EmptyString; query := "t=5"; fragment := "top" |}
            "abc123" _ _ _).
  - vm_compute. reflexivity.
  - intros [[H|H] _]; discriminate H.
  - vm_compute. reflexivity.
Defined.

Lemma X21_witness :
  extract_video_id ascii_lib ("  " +:+ "https://youtu.be/abc123")
  = extract_video_id ascii_lib "https://youtu.be/abc123"
  /\ extract_video_id ascii_lib ("https://youtu.be/abc" +:+ String "010" "123")
     = extract_video_id ascii_lib ("https://youtu.be/abc" +:+ "123").
Proof.
  split.
  - apply (proj1 (X21_whitespace_ignored ascii_lib "  " "https://youtu.be/abc123"
                    EmptyString "010")). reflexivity.
  - apply (proj2 (X21_whitespace_ignored ascii_lib EmptyString "https://youtu.be/abc"
                    "123" "010")). reflexivity.
Defined.
